(** * News_Pick: a shallow embedding of [src/main.py]

    The application object [NewsApp] of the source is embedded as a record
    holding the mutable [NewsState] together with the values of the widgets
    the methods write to.  Methods are computations in a small state and
    exception monad, so that Python's [try]/[except]/[finally], the
    [ValueError] of [list.remove] and the [ZeroDivisionError] of [//] are
    written out.  The outside world (news feed, translator, favourites file)
    enters through oracles and through the [favorites_file] field. *)

From stdpp Require Import gmap strings list fin_maps pretty.
From Stdlib Require Import ZArith Lia.

Local Open Scope Z_scope.

(** ** Python values *)

(** Field values of an article dictionary: [None] (JSON [null], and what
    [dict.get] answers for an absent key) and strings, which is what the
    program itself reads ([title], [description]) and what it puts on the
    screen.  JSON numbers, booleans, arrays and nested objects are left out;
    on the values kept, Python's [==] is structural equality. *)
Inductive Value : Type :=
| VNone
| VStr (s : string).

#[global] Instance Value_eq_dec : EqDecision Value.
Proof. solve_decision. Defined.

(** Truth value testing ([if title], [not text]). *)
Definition truthy (v : Value) : bool :=
  match v with
  | VNone => false
  | VStr s => negb (bool_decide (s = ""))
  end.

(** An article as delivered by the feed: a [dict] with string keys.  Equality
    of [gmap]s is extensional, as [==] on dictionaries is. *)
Abbreviation Article := (gmap string Value).

(** [d.get(k)] *)
Definition dict_get (d : Article) (k : string) : Value :=
  default VNone (d !! k).

(** [d.get(k, dflt)] *)
Definition dict_get_or (d : Article) (k : string) (dflt : Value) : Value :=
  default dflt (d !! k).

(** ** Python list operations *)

(** Clipping of one slice bound, for a list of length [len]. *)
Definition slice_bound (len i : Z) : Z :=
  if i <? 0 then Z.max (i + len) 0 else Z.min i len.

(** [l[start:stop]] *)
Definition py_slice {A : Type} (l : list A) (start stop : Z) : list A :=
  let len := Z.of_nat (length l) in
  let lo := slice_bound len start in
  let hi := slice_bound len stop in
  take (Z.to_nat (hi - lo)) (drop (Z.to_nat lo) l).

(** [l.remove(x)]: drops the first element equal to [x]; [None] stands for
    the [ValueError] raised when there is none. *)
Fixpoint list_remove {A : Type} `{EqDecision A} (x : A) (l : list A)
  : option (list A) :=
  match l with
  | [] => None
  | y :: l' => if decide (y = x) then Some l'
               else cons y <$> list_remove x l'
  end.

(** [l[i]] for a Python integer index; [None] stands for [IndexError]. *)
Definition py_index {A : Type} (l : list A) (i : Z) : option A :=
  let len := Z.of_nat (length l) in
  if i <? 0 then (if i + len <? 0 then None else l !! Z.to_nat (i + len))
  else l !! Z.to_nat i.

(** ** Pagination arithmetic of [display_articles] and [change_page] *)

(** [(len(all_articles) + articles_per_page - 1) // articles_per_page];
    the source raises [ZeroDivisionError] for a zero divisor, see
    [floordiv] below. *)
Definition total_pages (len per_page : Z) : Z :=
  (len + per_page - 1) / per_page.

(** [all_articles[start_idx:end_idx]] of [display_articles]. *)
Definition current_articles {A : Type} (l : list A) (page_num per_page : Z)
  : list A :=
  let start_idx := page_num * per_page in
  let end_idx := start_idx + per_page in
  py_slice l start_idx end_idx.

(** The ceiling of the rational [a / b], for [0 < b], as the unique integer
    [q] with [q - 1 < a / b <= q]. *)
Definition is_ceiling (q a b : Z) : Prop :=
  (q - 1) * b < a <= q * b.

(** ** Exceptions and results *)

(** The classes of [Exception] the program can meet.  [ExternalError] is any
    exception raised by a collaborator (HTTP client, translator, JSON
    decoder, file system) other than those named. *)
Inductive ExnKind : Type :=
| ValueError
| KeyError
| IndexError
| ZeroDivisionError
| OSError
| ExternalError.

(** An exception object; [exn_str] is [str(e)]. *)
Record Exn : Type := mkExn { exn_kind : ExnKind; exn_str : string }.

Inductive Result (A : Type) : Type :=
| Return (a : A)
| Raise (e : Exn).
Arguments Return {A} a.
Arguments Raise {A} e.

(** ** Data classes and widgets *)

(** [NewsArticle] (a [dataclass]). *)
Record NewsArticle : Type := mkNewsArticle {
  title : Value;
  description : Value;
  translated_title : Value;
  translated_description : Value;
  is_read : bool
}.

Inductive Icon : Type := FAVORITE | FAVORITE_BORDER.

(** The [ft.Container] built by [create_article_container]: two texts, and
    an [IconButton] whose click handler has captured [raw_article].  The
    button is a shared mutable object, so a container holds its identity and
    the icon lives in the [icons] store of the application. *)
Record Container : Type := mkContainer {
  text_title : Value;
  text_description : Value;
  icon_button : nat;
  raw_article : Article
}.

(** A control of [headlines_list]: an article container, or the notice
    shown by [display_favorites] for an empty favourites list. *)
Inductive Control : Type :=
| ArticleControl (c : Container)
| NoticeControl (text : string).

(** What [FAVORITES_FILE] holds, told apart by what [load_favorites] meets:
    no file, a file that cannot be opened or read, a file whose content
    [json.load] rejects, a file holding a JSON array of objects. *)
Inductive FavFile : Type :=
| FileMissing
| FileUnreadable (e : Exn)
| FileInvalidJSON (e : Exn)
| FileJSON (doc : list Article).

(** Effects on the outside world, in the order they happen. *)
Inductive Event : Type :=
| Print (line : string)
| HttpGet (country_code : string)
| Translate (text : Value)
| WriteFavorites (doc : list Article)
| Sleep (seconds : Z)
| ShowSnackBar (text : string).

(** [NewsState] *)
Record NewsState : Type := mkNewsState {
  current_page : Z;
  articles_per_page : Z;
  current_country : string;
  favorites : list Article;
  all_articles : list Container
}.

(** The widgets of [NewsApp] that the methods read or write. *)
Record Widgets : Type := mkWidgets {
  status_text : string;              (* status_text.value *)
  loading_container : bool;          (* loading_container.visible *)
  headlines_list : list Control;     (* headlines_list.controls *)
  pagination_text : string;          (* pagination_text.value *)
  pagination_row : bool;             (* pagination_row.visible *)
  tabs : option Z;                   (* tabs.selected_index *)
  icons : gmap nat Icon;             (* icon of each IconButton *)
  next_button : nat                  (* identity of the next IconButton *)
}.

(** What one GET request to the feed comes to: [session.get] raises, or
    there is a response with a status and, when [response.json()] is awaited,
    either an exception or the decoded object.  Of that object the program
    reads [data.get('articles', [])] only: [None] stands for an absent key
    and for [null]. *)
Inductive HttpReply : Type :=
| RequestFails (e : Exn)
| Response (status : Z) (json : Result (option (list Article))).

(** The world outside the process.  [translator k text] is what the call
    number [k] of [translator.translate(text=text)] does, [feed k code] what
    the GET request number [k], for the URL [BASE_URL.format(code)], does.
    [BASE_URL] and [FAVORITES_FILE] come from [config], which is not part of
    the sources at hand: the feed is indexed by the country code, and there
    is one favourites file. *)
Record World : Type := mkWorld {
  favorites_file : FavFile;
  disk_write_error : option Exn;     (* what open(FAVORITES_FILE, 'w') raises, if anything *)
  translator : nat -> Value -> Result Value;
  translator_calls : nat;            (* calls of translator.translate so far *)
  feed : nat -> string -> HttpReply;
  feed_calls : nat;                  (* GET requests so far *)
  pending_tasks : nat;               (* display_favorites tasks created, not yet run *)
  trace : list Event
}.

(** [NewsApp] *)
Record NewsApp : Type := mkNewsApp {
  state : NewsState;
  ui : Widgets;
  world : World
}.

(** Field updates. *)
Definition set_current_page (v : Z) (s : NewsState) : NewsState :=
  mkNewsState v (articles_per_page s) (current_country s) (favorites s) (all_articles s).
Definition set_current_country (v : string) (s : NewsState) : NewsState :=
  mkNewsState (current_page s) (articles_per_page s) v (favorites s) (all_articles s).
Definition set_favorites (v : list Article) (s : NewsState) : NewsState :=
  mkNewsState (current_page s) (articles_per_page s) (current_country s) v (all_articles s).
Definition set_all_articles (v : list Container) (s : NewsState) : NewsState :=
  mkNewsState (current_page s) (articles_per_page s) (current_country s) (favorites s) v.

Definition set_status_text (v : string) (w : Widgets) : Widgets :=
  mkWidgets v (loading_container w) (headlines_list w) (pagination_text w)
            (pagination_row w) (tabs w) (icons w) (next_button w).
Definition set_loading_container (v : bool) (w : Widgets) : Widgets :=
  mkWidgets (status_text w) v (headlines_list w) (pagination_text w)
            (pagination_row w) (tabs w) (icons w) (next_button w).
Definition set_headlines_list (v : list Control) (w : Widgets) : Widgets :=
  mkWidgets (status_text w) (loading_container w) v (pagination_text w)
            (pagination_row w) (tabs w) (icons w) (next_button w).
Definition set_pagination_text (v : string) (w : Widgets) : Widgets :=
  mkWidgets (status_text w) (loading_container w) (headlines_list w) v
            (pagination_row w) (tabs w) (icons w) (next_button w).
Definition set_pagination_row (v : bool) (w : Widgets) : Widgets :=
  mkWidgets (status_text w) (loading_container w) (headlines_list w)
            (pagination_text w) v (tabs w) (icons w) (next_button w).
Definition set_tabs (v : option Z) (w : Widgets) : Widgets :=
  mkWidgets (status_text w) (loading_container w) (headlines_list w)
            (pagination_text w) (pagination_row w) v (icons w) (next_button w).
Definition set_icons (v : gmap nat Icon) (w : Widgets) : Widgets :=
  mkWidgets (status_text w) (loading_container w) (headlines_list w)
            (pagination_text w) (pagination_row w) (tabs w) v (next_button w).
Definition set_next_button (v : nat) (w : Widgets) : Widgets :=
  mkWidgets (status_text w) (loading_container w) (headlines_list w)
            (pagination_text w) (pagination_row w) (tabs w) (icons w) v.

Definition set_favorites_file (v : FavFile) (w : World) : World :=
  mkWorld v (disk_write_error w) (translator w) (translator_calls w) (feed w)
          (feed_calls w) (pending_tasks w) (trace w).
Definition set_translator_calls (v : nat) (w : World) : World :=
  mkWorld (favorites_file w) (disk_write_error w) (translator w) v (feed w)
          (feed_calls w) (pending_tasks w) (trace w).
Definition set_feed_calls (v : nat) (w : World) : World :=
  mkWorld (favorites_file w) (disk_write_error w) (translator w) (translator_calls w)
          (feed w) v (pending_tasks w) (trace w).
Definition set_pending_tasks (v : nat) (w : World) : World :=
  mkWorld (favorites_file w) (disk_write_error w) (translator w) (translator_calls w)
          (feed w) (feed_calls w) v (trace w).
Definition set_trace (v : list Event) (w : World) : World :=
  mkWorld (favorites_file w) (disk_write_error w) (translator w) (translator_calls w)
          (feed w) (feed_calls w) (pending_tasks w) v.

Definition on_state (f : NewsState -> NewsState) (app : NewsApp) : NewsApp :=
  mkNewsApp (f (state app)) (ui app) (world app).
Definition on_ui (f : Widgets -> Widgets) (app : NewsApp) : NewsApp :=
  mkNewsApp (state app) (f (ui app)) (world app).
Definition on_world (f : World -> World) (app : NewsApp) : NewsApp :=
  mkNewsApp (state app) (ui app) (f (world app)).

(** ** The monad of methods: state of the application, and exceptions *)

Definition M (A : Type) : Type := NewsApp -> Result A * NewsApp.

Definition ret {A : Type} (a : A) : M A := fun app => (Return a, app).

Definition bind {A B : Type} (c : M A) (k : A -> M B) : M B :=
  fun app =>
    match c app with
    | (Return a, app') => k a app'
    | (Raise e, app') => (Raise e, app')
    end.

Definition raise {A : Type} (e : Exn) : M A := fun app => (Raise e, app).

Definition gets {A : Type} (f : NewsApp -> A) : M A := fun app => (Return (f app), app).

Definition modify (f : NewsApp -> NewsApp) : M unit := fun app => (Return tt, f app).

(** [try: c  except Exception as e: handler e] *)
Definition try_except {A : Type} (c : M A) (handler : Exn -> M A) : M A :=
  fun app =>
    match c app with
    | (Return a, app') => (Return a, app')
    | (Raise e, app') => handler e app'
    end.

(** [try: c  finally: fin] *)
Definition try_finally {A : Type} (c : M A) (fin : M unit) : M A :=
  fun app =>
    match c app with
    | (r, app') =>
        match fin app' with
        | (Return _, app'') => (r, app'')
        | (Raise e, app'') => (Raise e, app'')
        end
    end.

#[global] Instance M_ret : MRet M := @ret.
#[global] Instance M_bind : MBind M := fun A B k c => bind c k.

(** [for x in l: body x] *)
Fixpoint for_each {A : Type} (l : list A) (body : A -> M unit) : M unit :=
  match l with
  | [] => ret tt
  | x :: l' => body x;; for_each l' body
  end.

(** The outcome of a method, and the application after it: after an
    exception, the application is as the exception left it. *)
Definition outcome {A : Type} (c : M A) (app : NewsApp) : Result A := fst (c app).
Definition exec {A : Type} (c : M A) (app : NewsApp) : NewsApp := snd (c app).

(** [a // b] *)
Definition floordiv (a b : Z) : M Z :=
  if b =? 0 then raise (mkExn ZeroDivisionError "integer division or modulo by zero")
  else ret (a / b).

Definition emit (e : Event) : M unit :=
  modify (on_world (fun w => set_trace (trace w ++ [e]) w)).

(** [print(line)] *)
Definition print (line : string) : M unit := emit (Print line).

(** ** Methods of [NewsApp] that need neither the feed nor the translator *)

(** The [countries] property, in the order of its dictionary. *)
Definition countries : list (string * string) :=
  [("jp", "日本"); ("us", "アメリカ"); ("gb", "イギリス"); ("fr", "フランス");
   ("de", "ドイツ"); ("kr", "韓国"); ("cn", "中国")].

Fixpoint assoc (k : string) (l : list (string * string)) : option string :=
  match l with
  | [] => None
  | (k', v) :: l' => if decide (k' = k) then Some v else assoc k l'
  end.

(** [self.countries[country_code]] *)
Definition countries_item (country_code : string) : M string :=
  match assoc country_code countries with
  | Some name => mret name
  | None => raise (mkExn KeyError ("'" +:+ country_code +:+ "'"))
  end.

Definition update_status (message : string) : M unit :=
  modify (on_ui (set_status_text message)).

Definition show_loading (show : bool) : M unit :=
  modify (on_ui (set_loading_container show)).

Definition load_favorites : M unit :=
  file ← gets (fun app => favorites_file (world app));
  match file with
  | FileMissing => mret tt
  | FileJSON doc => modify (on_state (set_favorites doc))
  | FileInvalidJSON e =>
      print ("お気に入りファイルの読み込みエラー: " +:+ exn_str e);;
      modify (on_state (set_favorites []))
  | FileUnreadable e =>
      print ("予期せぬエラー: " +:+ exn_str e);;
      modify (on_state (set_favorites []))
  end.

(** [json.dump] writes the whole list [favorites]; the file then holds that
    document and nothing of what it held before. *)
Definition save_favorites : M unit :=
  err ← gets (fun app => disk_write_error (world app));
  match err with
  | Some e => raise e
  | None =>
      favs ← gets (fun app => favorites (state app));
      emit (WriteFavorites favs);;
      modify (on_world (set_favorites_file (FileJSON favs)))
  end.

(** [asyncio.create_task(self.display_favorites())]: the task runs once the
    handler that created it has returned, see [run_tasks]. *)
Definition create_task_display_favorites : M unit :=
  modify (on_world (fun w => set_pending_tasks (S (pending_tasks w)) w)).

(** [is_favorite], with [self.state.favorites] as an argument. *)
Definition is_favorite (favs : list Article) (article : Article) : bool :=
  existsb (fun fav =>
             bool_decide (dict_get fav "title" = dict_get article "title")
             && bool_decide (dict_get fav "description" = dict_get article "description"))
          favs.

Definition get_favorite_icon (favs : list Article) (article : Article) : Icon :=
  if is_favorite favs article then FAVORITE else FAVORITE_BORDER.

(** [handle_favorite_click(e, article)]; [e] is the clicked [IconButton]
    ([e.control]). *)
Definition handle_favorite_click (e : nat) (article : Article) : M unit :=
  favs ← gets (fun app => favorites (state app));
  (if is_favorite favs article then
     match list_remove article favs with
     | Some favs' => modify (on_state (set_favorites favs'))
     | None => raise (mkExn ValueError "list.remove(x): x not in list")
     end
   else modify (on_state (set_favorites (favs ++ [article]))));;
  save_favorites;;
  favs' ← gets (fun app => favorites (state app));
  modify (on_ui (fun w => set_icons (<[e := get_favorite_icon favs' article]> (icons w)) w));;
  selected ← gets (fun app => tabs (ui app));
  if bool_decide (selected = Some (Z.of_nat (length countries)))
  then create_task_display_favorites
  else mret tt.

Definition display_articles (page_num : Z) : M unit :=
  modify (on_state (set_current_page page_num));;
  per_page ← gets (fun app => articles_per_page (state app));
  articles ← gets (fun app => all_articles (state app));
  let shown := current_articles articles page_num per_page in
  total ← floordiv (Z.of_nat (length articles) + per_page - 1) per_page;
  modify (on_ui (set_headlines_list (ArticleControl <$> shown)));;
  modify (on_ui (set_pagination_text
                   ("ページ " +:+ pretty (page_num + 1) +:+ "/" +:+ pretty total))).

(** In [0 <= new_page < total] the right operand is evaluated only when
    [0 <= new_page] holds. *)
Definition change_page (delta : Z) : M unit :=
  cur ← gets (fun app => current_page (state app));
  let new_page := cur + delta in
  if 0 <=? new_page then
    per_page ← gets (fun app => articles_per_page (state app));
    articles ← gets (fun app => all_articles (state app));
    total ← floordiv (Z.of_nat (length articles) + per_page - 1) per_page;
    if new_page <? total then display_articles new_page else mret tt
  else mret tt.

(** [NewsState()] and the widgets as [init_components] creates them. *)
Definition NewsState_init : NewsState := mkNewsState 0 10 "jp" [] [].

Definition Widgets_init : Widgets :=
  mkWidgets "" false [] "" false (Some 0) ∅ 0%nat.

(** [NewsApp(page)] in the world [w]. *)
Definition NewsApp_init (w : World) : NewsApp :=
  exec load_favorites (mkNewsApp NewsState_init Widgets_init w).

(** ** The article pipeline *)

(** [translate_text]: any [Exception] of the translator is caught, and the
    text itself is returned. *)
Definition translate_text (text : Value) : M Value :=
  if negb (truthy text) then mret (VStr "")
  else
    try_except
      (k ← gets (fun app => translator_calls (world app));
       translate ← gets (fun app => translator (world app));
       modify (on_world (set_translator_calls (S k)));;
       emit (Translate text);;
       match translate k text with
       | Return translated => mret translated
       | Raise e => raise e
       end)
      (fun e => print ("翻訳エラー: " +:+ exn_str e);; mret text).

Definition translate_article (article : Article) : M NewsArticle :=
  let title := dict_get_or article "title" (VStr "") in
  let description := dict_get_or article "description" (VStr "") in
  translated_title ←
    (if truthy title then translate_text title else mret (VStr "タイトルなし"));
  translated_description ←
    (if truthy description then translate_text description else mret (VStr "内容なし"));
  mret (mkNewsArticle title description translated_title translated_description false).

(** A new [IconButton] is made for each container; its icon is
    [get_favorite_icon(raw_article)] at that moment. *)
Definition create_article_container (raw : Article) (article : NewsArticle)
  : M Container :=
  button ← gets (fun app => next_button (ui app));
  favs ← gets (fun app => favorites (state app));
  modify (on_ui (fun w =>
    set_next_button (S button)
      (set_icons (<[button := get_favorite_icon favs raw]> (icons w)) w)));;
  mret (mkContainer (translated_title article) (translated_description article)
                    button raw).

(** The body of the loops of [process_news_response] and
    [display_favorites]. *)
Definition append_article (article : Article) : M unit :=
  translated_article ← translate_article article;
  article_container ← create_article_container article translated_article;
  modify (on_state (fun s => set_all_articles (all_articles s ++ [article_container]) s)).

Definition process_news_response (data : option (list Article))
    (country_code : string) : M unit :=
  let articles := default [] data in
  match articles with
  | [] =>
      name ← countries_item country_code;
      update_status (name +:+ "のニュースが見つかりませんでした。")
  | _ :: _ =>
      update_status (pretty (length articles) +:+ "件のニュースを取得しました");;
      for_each articles append_article;;
      modify (fun app =>
        on_ui (set_pagination_row
                 (bool_decide (articles_per_page (state app)
                               < Z.of_nat (length (all_articles (state app))))))
              app);;
      display_articles 0
  end.

Definition fetch_headlines (country_code : string) : M unit :=
  try_finally
    (try_except
       (show_loading true;;
        update_status "ニュースを取得中...";;
        modify (on_ui (set_headlines_list []));;
        modify (on_state (set_all_articles []));;
        k ← gets (fun app => feed_calls (world app));
        get ← gets (fun app => feed (world app));
        modify (on_world (set_feed_calls (S k)));;
        emit (HttpGet country_code);;
        match get k country_code with
        | RequestFails e => raise e
        | Response status json =>
            if bool_decide (status = 200) then
              match json with
              | Return data => process_news_response data country_code
              | Raise e => raise e
              end
            else
              update_status ("ニュースの取得に失敗しました。(エラーコード: "
                             +:+ pretty status +:+ ")")
        end)
       (fun e => update_status ("エラーが発生しました: " +:+ exn_str e)))
    (show_loading false).

Definition display_favorites : M unit :=
  modify (on_ui (set_headlines_list []));;
  modify (on_state (set_all_articles []));;
  favs ← gets (fun app => favorites (state app));
  match favs with
  | [] =>
      modify (on_ui (fun w =>
        set_headlines_list
          (headlines_list w ++ [NoticeControl "お気に入りのニュースはありません"]) w))
  | _ :: _ =>
      for_each favs append_article;;
      display_articles 0
  end.

Definition refresh_news : M unit :=
  country ← gets (fun app => current_country (state app));
  fetch_headlines country.

(** [handle_tab_change(e)]; [e.control] is [self.tabs]. *)
Definition handle_tab_change : M unit :=
  selected ← gets (fun app => tabs (ui app));
  match selected with
  | None => mret tt
  | Some selected_index =>
      if Z.of_nat (length countries) <=? selected_index then display_favorites
      else
        let country_codes := fst <$> countries in
        if selected_index <? Z.of_nat (length country_codes) then
          match py_index country_codes selected_index with
          | Some code =>
              modify (on_state (set_current_country code));;
              fetch_headlines code
          | None => raise (mkExn IndexError "list index out of range")
          end
        else mret tt
  end.

(** ** The periodic update *)

(** One round of the [while True] loop of [check_for_updates]. *)
Definition check_for_updates_round : M unit :=
  emit (Sleep 300);;
  country ← gets (fun app => current_country (state app));
  fetch_headlines country;;
  emit (ShowSnackBar "新しいニュースが利用可能です").

(** The first [rounds] rounds of [check_for_updates]; the loop of the source
    has no exit. *)
Fixpoint check_for_updates (rounds : nat) : M unit :=
  match rounds with
  | O => mret tt
  | S n => check_for_updates_round;; check_for_updates n
  end.

(** ** The program *)

(** [main(page)]: the application is built, and the headlines of [jp] are
    fetched. *)
Definition main (w : World) : Result unit * NewsApp :=
  fetch_headlines "jp" (NewsApp_init w).

(** What the user can do: the handlers that the widgets register
    ([on_click] of the two pagination buttons, of the refresh button and of
    the favourite button of a container, [on_change] of the tabs). *)
Inductive Command : Type :=
| ClickBack
| ClickForward
| ClickRefresh
| SelectTab (index : option Z)
| ClickFavorite (button : nat) (article : Article).

Definition handler (cmd : Command) : M unit :=
  match cmd with
  | ClickBack => change_page (-1)
  | ClickForward => change_page 1
  | ClickRefresh => refresh_news
  | SelectTab index => modify (on_ui (set_tabs index));; handle_tab_change
  | ClickFavorite button article => handle_favorite_click button article
  end.

(** The tasks made by [asyncio.create_task] run after the handler. *)
Fixpoint run_display_favorites (n : nat) : M unit :=
  match n with
  | O => mret tt
  | S n' => try_except display_favorites (fun _ => mret tt);; run_display_favorites n'
  end.

Definition run_tasks : M unit :=
  n ← gets (fun app => pending_tasks (world app));
  modify (on_world (set_pending_tasks 0));;
  run_display_favorites n.

(** One command: an exception that leaves a handler is reported by the
    framework, and the application goes on with the state it has. *)
Definition dispatch (app : NewsApp) (cmd : Command) : NewsApp :=
  exec run_tasks (exec (handler cmd) app).

(** The application after [main] and a sequence of commands. *)
Definition run (w : World) (cmds : list Command) : NewsApp :=
  foldl dispatch (snd (main w)) cmds.

(** ** Sample worlds, for the concrete runs below *)

Definition sample_article (n : nat) : Article :=
  {[ "title" := VStr ("T" +:+ pretty n); "description" := VStr ("D" +:+ pretty n) ]}.

Definition sample_articles (n : nat) : list Article :=
  sample_article <$> seq 1 n.

Definition connection_refused : Exn := mkExn ExternalError "Cannot connect to host".

(** A translator that always answers. *)
Definition translator_ok (k : nat) (text : Value) : Result Value :=
  match text with
  | VStr s => Return (VStr ("ja:" +:+ s))
  | VNone => Return VNone
  end.

(** The world in which the requests are answered by [replies], in turn. *)
Definition sample_world (file : FavFile)
    (translate : nat -> Value -> Result Value) (replies : list HttpReply) : World :=
  mkWorld file None translate 0%nat
          (fun k _ => default (RequestFails connection_refused) (replies !! k))
          0%nat 0%nat [].

Definition feed_ok (articles : list Article) : HttpReply :=
  Response 200 (Return (Some articles)).

(** After [main], with a feed of fifteen articles. *)
Definition app15 : NewsApp :=
  run (sample_world FileMissing translator_ok [feed_ok (sample_articles 15)]) [].

(** The identity of an article: its title and its description. *)
Definition article_key (article : Article) : Value * Value :=
  (dict_get article "title", dict_get article "description").

(** The list operation of [handle_favorite_click]: [None] stands for the
    [ValueError] of [list.remove]. *)
Definition toggle_favorite (favs : list Article) (article : Article)
  : option (list Article) :=
  if is_favorite favs article then list_remove article favs
  else Some (favs ++ [article]).

(** No two favourites with the same title and description. *)
Definition fav_set (favs : list Article) : Prop :=
  NoDup (article_key <$> favs).

(** One news story as two successive responses of the feed deliver it: the
    same title and description, another link. *)
Definition story_v1 : Article :=
  {[ "title" := VStr "A"; "description" := VStr "B";
     "url" := VStr "https://example.org/a?ref=1" ]}.

Definition story_v2 : Article :=
  {[ "title" := VStr "A"; "description" := VStr "B";
     "url" := VStr "https://example.org/a?ref=2" ]}.

Definition world_story : World :=
  sample_world FileMissing translator_ok [feed_ok [story_v1]; feed_ok [story_v2]].

(** The story is shown, marked as a favourite, and the feed is refreshed. *)
Definition app_story : NewsApp := run world_story [].
Definition app_story_refreshed : NewsApp :=
  run world_story [ClickFavorite 0 story_v1; ClickRefresh].

(** A record with no other field than [title] and [description]. *)
Definition title_description_record (record : Article) : Prop :=
  dom record ⊆@{gset string} {[ "title"; "description" ]}.

(** What [translate_text] returns for a text that is not empty, given what
    the translator did: the translation, or the text itself. *)
Definition or_original (r : Result Value) (text : Value) : Value :=
  match r with
  | Return translated => translated
  | Raise _ => text
  end.

(** The number of calls of the translator that [translate_article] makes. *)
Definition calls_for (article : Article) : nat :=
  (if truthy (dict_get_or article "title" (VStr "")) then 1 else 0)
  + (if truthy (dict_get_or article "description" (VStr "")) then 1 else 0).

(** The number of calls made for the first [i] articles of a batch. *)
Definition calls_before (i : nat) (articles : list Article) : nat :=
  sum_list (calls_for <$> take i articles).

(** The two texts of the container of [article], when the translator has
    been called [k] times before. *)
Definition shown_title (translate : nat -> Value -> Result Value) (k : nat)
    (article : Article) : Value :=
  let title := dict_get_or article "title" (VStr "") in
  if truthy title then or_original (translate k title) title
  else VStr "タイトルなし".

Definition shown_description (translate : nat -> Value -> Result Value) (k : nat)
    (article : Article) : Value :=
  let title := dict_get_or article "title" (VStr "") in
  let description := dict_get_or article "description" (VStr "") in
  if truthy description
  then or_original (translate (k + if truthy title then 1 else 0)%nat description)
                   description
  else VStr "内容なし".

(** What a step of the pipeline leaves alone. *)
Definition pipeline_frame (app app' : NewsApp) : Prop :=
  current_page (state app') = current_page (state app)
  /\ articles_per_page (state app') = articles_per_page (state app)
  /\ current_country (state app') = current_country (state app)
  /\ favorites (state app') = favorites (state app)
  /\ translator (world app') = translator (world app)
  /\ pagination_row (ui app') = pagination_row (ui app)
  /\ status_text (ui app') = status_text (ui app).

(** The containers of a batch, the translator having been called [k] times
    before: the same articles in the same order, each with its texts. *)
Fixpoint enriched (translate : nat -> Value -> Result Value) (k : nat)
    (articles : list Article) (containers : list Container) : Prop :=
  match articles, containers with
  | [], [] => True
  | article :: articles', c :: containers' =>
      raw_article c = article
      /\ text_title c = shown_title translate k article
      /\ text_description c = shown_description translate k article
      /\ enriched translate (k + calls_for article) articles' containers'
  | _, _ => False
  end.

(** A translator that raises at every second call, from the first on. *)
Definition translator_flaky (k : nat) (text : Value) : Result Value :=
  if Nat.even k then Raise (mkExn ExternalError "Request exception")
  else translator_ok k text.

(** ** Properties kept by methods *)

(** [c] keeps [I]: whatever [c] does, with or without an exception, [I]
    holds of the application afterwards if it held before. *)
Definition preserves {A : Type} (I : NewsApp -> Prop) (c : M A) : Prop :=
  forall app, I app -> I (snd (c app)).

(** The events of the periodic update: the timer, and the notification. *)
Definition periodic_event (e : Event) : Prop :=
  match e with
  | Sleep _ | ShowSnackBar _ => True
  | _ => False
  end.

(** No event of the periodic update has happened. *)
Definition no_periodic_update (app : NewsApp) : Prop :=
  Forall (fun e => ~ periodic_event e) (trace (world app)).

(** The favourites are a set; so is the content of the favourites file. *)
Definition favorites_are_set (app : NewsApp) : Prop :=
  fav_set (favorites (state app)).

Definition file_is_set (file : FavFile) : Prop :=
  match file with
  | FileJSON doc => fav_set doc
  | _ => True
  end.

(** The relation between the page and the articles that pagination is meant
    to keep. *)
Definition page_invariant (st : NewsState) : Prop :=
  match all_articles st with
  | [] => current_page st = 0
  | _ :: _ =>
      0 <= current_page st
        < total_pages (Z.of_nat (length (all_articles st))) (articles_per_page st)
  end.

(** The application as [fetch_headlines] has it when the response arrives:
    loading, the list of articles emptied, one request more. *)
Definition awaiting_response (country_code : string) (app : NewsApp) : NewsApp :=
  on_world (fun w => set_trace (trace w ++ [HttpGet country_code]) w)
    (on_world (set_feed_calls (S (feed_calls (world app))))
       (on_state (set_all_articles [])
          (on_ui (set_headlines_list [])
             (on_ui (set_status_text "ニュースを取得中...")
                (on_ui (set_loading_container true) app))))).

(** The exception that a GET request ends with, if any: of the transport,
    or of the decoding of a response with status 200. *)
Definition reply_exception (reply : HttpReply) : option Exn :=
  match reply with
  | RequestFails e => Some e
  | Response status (Raise e) => if bool_decide (status = 200) then Some e else None
  | Response _ (Return _) => None
  end.


(** The application before any fetch, in a world whose feed answers with
    [replies]. *)
Definition app_start (replies : list HttpReply) : NewsApp :=
  NewsApp_init (sample_world FileMissing translator_ok replies).

(** [periodic_event], as a test. *)
Definition is_periodic (e : Event) : bool :=
  match e with
  | Sleep _ | ShowSnackBar _ => true
  | _ => false
  end.

(** The application before any fetch, with one favourite loaded from the
    favourites file. *)
Definition app_start_favorite (replies : list HttpReply) : NewsApp :=
  NewsApp_init (sample_world (FileJSON [sample_article 2]) translator_ok replies).

(** The application in a world where the favourites file cannot be
    written. *)
Definition permission_denied : Exn := mkExn OSError "[Errno 13] Permission denied".

Definition app_read_only : NewsApp :=
  NewsApp_init
    (mkWorld FileMissing (Some permission_denied) translator_ok 0%nat
             (fun _ _ => RequestFails connection_refused) 0%nat 0%nat []).


(** Unfolding of the monad, for proofs by computation. *)
Ltac unfold_monad :=
  unfold outcome, exec, mbind, M_bind, mret, M_ret, bind, ret, raise, gets,
    modify, try_except, try_finally, emit, print in *.

(** * Properties *)

(** ** Pagination *)

Section Pagination.
Context {A : Type}.
Implicit Types (l : list A) (p : nat) (ps : Z).

Lemma total_pages_ceiling len ps : 0 < ps -> is_ceiling (total_pages len ps) len ps.
Proof.
  intros Hps. unfold is_ceiling, total_pages.
  pose proof (Z.div_mod (len + ps - 1) ps ltac:(lia)) as Hdm.
  pose proof (Z.mod_pos_bound (len + ps - 1) ps Hps) as Hb.
  nia.
Qed.

Lemma is_ceiling_unique q q' a b : 0 < b -> is_ceiling q a b -> is_ceiling q' a b -> q = q'.
Proof. unfold is_ceiling. intros Hb H1 H2. nia. Qed.

Lemma total_pages_zero ps : 0 < ps -> total_pages 0 ps = 0.
Proof.
  intros Hps. unfold total_pages. apply Z.div_small. lia.
Qed.

Lemma total_pages_nonneg len ps : 0 <= len -> 0 < ps -> 0 <= total_pages len ps.
Proof. intros. unfold total_pages. apply Z.div_pos; lia. Qed.

Lemma total_pages_pos len ps : 0 < len -> 0 < ps -> 0 < total_pages len ps.
Proof.
  intros Hl Hps. pose proof (total_pages_ceiling len ps Hps) as [_ H]. nia.
Qed.

(** A page with a non-negative number is a window of [ps] elements. *)
Lemma current_articles_window l p ps :
  0 < ps ->
  current_articles l (Z.of_nat p) ps
  = take (Z.to_nat ps) (drop (p * Z.to_nat ps) l).
Proof.
  intros Hps. unfold current_articles, py_slice, slice_bound.
  set (n := Z.of_nat (length l)).
  assert (Hn : 0 <= n) by lia.
  destruct (Z.ltb_spec (Z.of_nat p * ps) 0) as [Hneg|_]; [nia|].
  destruct (Z.ltb_spec (Z.of_nat p * ps + ps) 0) as [Hneg|_]; [nia|].
  destruct (Z.le_gt_cases (Z.of_nat p * ps) n) as [Hin|Hout].
  - rewrite (Z.min_l (Z.of_nat p * ps) n) by lia.
    rewrite Z2Nat.inj_mul, Nat2Z.id by lia.
    destruct (Z.le_gt_cases (Z.of_nat p * ps + ps) n) as [Hfull|Hpart].
    + rewrite Z.min_l by lia. f_equal. lia.
    + rewrite Z.min_r by lia.
      assert (Hk : Z.of_nat (p * Z.to_nat ps) = Z.of_nat p * ps)
        by (rewrite Nat2Z.inj_mul, Z2Nat.id; lia).
      rewrite !take_ge; [done | |]; rewrite length_drop; subst n; lia.
  - rewrite !Z.min_r by lia.
    assert (Hk : Z.of_nat (p * Z.to_nat ps) = Z.of_nat p * ps)
      by (rewrite Nat2Z.inj_mul, Z2Nat.id; lia).
    rewrite !drop_ge; [by rewrite !take_nil | subst n; lia | subst n; lia].
Qed.

Lemma concat_pages_take l ps (m : nat) :
  0 < ps ->
  concat (map (fun p => current_articles l (Z.of_nat p) ps) (seq 0 m))
  = take (m * Z.to_nat ps) l.
Proof.
  intros Hps. induction m as [|m IH].
  - by rewrite take_0.
  - rewrite seq_S, map_app, concat_app, IH. simpl.
    rewrite app_nil_r, current_articles_window by done.
    rewrite take_take_drop. f_equal. lia.
Qed.

(** Element [j] of page [p] is element [p * ps + j] of the list. *)
Lemma current_articles_lookup l p ps (j : nat) :
  0 < ps -> (Z.of_nat j < ps) ->
  current_articles l (Z.of_nat p) ps !! j = l !! (p * Z.to_nat ps + j)%nat.
Proof.
  intros Hps Hj. rewrite current_articles_window by done.
  rewrite lookup_take_lt by lia. by rewrite lookup_drop.
Qed.

(** Pages from [total_pages] on, and pages with a number so negative that
    the slice bounds clip to the same place, are empty. *)
Lemma current_articles_beyond l p ps :
  0 < ps -> total_pages (Z.of_nat (length l)) ps <= Z.of_nat p ->
  current_articles l (Z.of_nat p) ps = [].
Proof.
  intros Hps Hp. rewrite current_articles_window by done.
  pose proof (total_pages_ceiling (Z.of_nat (length l)) ps Hps) as [_ Hc].
  rewrite drop_ge; [by rewrite take_nil | nia].
Qed.
End Pagination.

(** C8. For every list and every positive page size, the page count of the
    source is the ceiling of [total / pageSize] (so it is [0] for an empty
    list), and the slices of the pages [0 .. pageCount - 1], put one after
    the other, give back the list: every element is on exactly one page. *)
Theorem pagination_partition {A : Type} (l : list A) (ps : Z) :
  0 < ps ->
  let total := Z.of_nat (length l) in
  is_ceiling (total_pages total ps) total ps
  /\ total_pages 0 ps = 0
  /\ concat (map (fun p => current_articles l (Z.of_nat p) ps)
                 (seq 0 (Z.to_nat (total_pages total ps)))) = l.
Proof.
  intros Hps total. split; [|split].
  - by apply total_pages_ceiling.
  - by apply total_pages_zero.
  - rewrite concat_pages_take by done.
    pose proof (total_pages_ceiling total ps Hps) as [_ Hc].
    pose proof (total_pages_nonneg total ps ltac:(lia) Hps).
    apply take_ge. subst total. nia.
Qed.

Lemma pagination_partition_witness :
  0 < 10
  /\ total_pages 15 10 = 2
  /\ concat (map (fun p => current_articles (seq 1 15) (Z.of_nat p) 10)
                 (seq 0 2)) = seq 1 15.
Proof.
  split; [lia|]. split; [reflexivity|].
  exact (proj2 (proj2 (pagination_partition (seq 1 15) 10 ltac:(lia)))).
Defined.

(** ** Page changes *)

Lemma floordiv_nonzero (a b : Z) (app : NewsApp) :
  b <> 0 -> floordiv a b app = (Return (a / b), app).
Proof.
  intros Hb. unfold floordiv. destruct (Z.eqb_spec b 0); [done|reflexivity].
Qed.

(** A run of [display_articles], for a page size other than zero. *)
Lemma display_articles_run (page_num : Z) (app : NewsApp) :
  articles_per_page (state app) <> 0 ->
  display_articles page_num app
  = (Return tt,
     mkNewsApp
       (set_current_page page_num (state app))
       (set_pagination_text
          ("ページ " +:+ pretty (page_num + 1) +:+ "/"
           +:+ pretty (total_pages (Z.of_nat (length (all_articles (state app))))
                                   (articles_per_page (state app))))
          (set_headlines_list
             (ArticleControl <$> current_articles (all_articles (state app)) page_num
                                                  (articles_per_page (state app)))
             (ui app)))
       (world app)).
Proof.
  intros Hpp. unfold display_articles. unfold_monad. simpl.
  rewrite floordiv_nonzero by done. reflexivity.
Qed.

(** C9. With [pages] the ceiling of [len(all_articles) / articles_per_page],
    [change_page(delta)] returns normally; it moves to
    [current_page + delta] when that number lies in [[0, pages)], and leaves
    the whole application as it is otherwise, so that a step forward on the
    last page changes nothing. *)
Theorem change_page_spec (app : NewsApp) (delta pages : Z) :
  let st := state app in
  let new_page := current_page st + delta in
  0 < articles_per_page st ->
  is_ceiling pages (Z.of_nat (length (all_articles st))) (articles_per_page st) ->
  outcome (change_page delta) app = Return tt
  /\ (0 <= new_page < pages ->
      current_page (state (exec (change_page delta) app)) = new_page)
  /\ (~ (0 <= new_page < pages) -> exec (change_page delta) app = app)
  /\ (delta = 1 -> current_page st = pages - 1 -> exec (change_page delta) app = app).
Proof.
  intros st new_page Hpp Hceil. subst st new_page. simpl in *.
  destruct app as [st w o]. simpl in *.
  remember (current_page st + delta) as new_page eqn:Hnew.
  assert (Htotal : (Z.of_nat (length (all_articles st)) + articles_per_page st - 1)
                   / articles_per_page st = pages).
  { eapply is_ceiling_unique; [exact Hpp | | exact Hceil]. by apply total_pages_ceiling. }
  assert (Hrun : change_page delta (mkNewsApp st w o)
                 = if (0 <=? new_page) && (new_page <? pages)
                   then display_articles new_page (mkNewsApp st w o)
                   else (Return tt, mkNewsApp st w o)).
  { unfold change_page. unfold_monad. simpl. rewrite <- Hnew.
    destruct (0 <=? new_page); [|done]. simpl.
    rewrite floordiv_nonzero by lia. rewrite Htotal.
    by destruct (new_page <? pages). }
  assert (Hshow : display_articles new_page (mkNewsApp st w o)
                  = (Return tt, snd (display_articles new_page (mkNewsApp st w o)))).
  { rewrite display_articles_run by (simpl; lia). done. }
  assert (Hout : ~ (0 <= new_page < pages) ->
                 exec (change_page delta) (mkNewsApp st w o) = mkNewsApp st w o).
  { intros Hno. unfold exec. rewrite Hrun.
    destruct (Z.leb_spec 0 new_page), (Z.ltb_spec new_page pages); simpl; try done. lia. }
  split; [|split; [|split]].
  - unfold outcome. rewrite Hrun.
    destruct ((0 <=? new_page) && (new_page <? pages)); [|done].
    by rewrite Hshow.
  - intros Hin. unfold exec. rewrite Hrun.
    destruct (Z.leb_spec 0 new_page), (Z.ltb_spec new_page pages); simpl; try lia.
    rewrite display_articles_run by (simpl; lia). done.
  - exact Hout.
  - intros -> Hlast. apply Hout. lia.
Qed.

(** Fifteen articles, ten to a page: forward from page 0 leads to page 1,
    and forward again changes nothing. *)
Lemma change_page_spec_witness :
  current_page (state (exec (change_page 1) app15)) = 1
  /\ exec (change_page 1) (exec (change_page 1) app15) = exec (change_page 1) app15.
Proof.
  split.
  - apply (change_page_spec app15 1 2); vm_compute; (done || (split; done)).
  - apply (change_page_spec (exec (change_page 1) app15) 1 2);
      vm_compute; (done || (split; done)).
Defined.

(** ** Loading the favourites *)

(** C5. When [json.load] rejects the content of the favourites file,
    [load_favorites] returns normally, with an empty favourites list and one
    warning printed; nothing else changes.  So does the construction of the
    application. *)
Theorem load_favorites_invalid_json (st : NewsState) (u : Widgets) (w : World) (e : Exn) :
  let w' := set_favorites_file (FileInvalidJSON e) w in
  load_favorites (mkNewsApp st u w')
  = (Return tt,
     mkNewsApp (set_favorites [] st) u
       (set_trace (trace w ++ [Print ("お気に入りファイルの読み込みエラー: " +:+ exn_str e)]) w'))
  /\ favorites (state (NewsApp_init w')) = [].
Proof. split; reflexivity. Qed.

(** The other cases of [load_favorites], for comparison. *)
Lemma load_favorites_missing (st : NewsState) (u : Widgets) (w : World) :
  let app := mkNewsApp st u (set_favorites_file FileMissing w) in
  load_favorites app = (Return tt, app).
Proof. reflexivity. Qed.

Lemma load_favorites_json (st : NewsState) (u : Widgets) (w : World) (doc : list Article) :
  let app := mkNewsApp st u (set_favorites_file (FileJSON doc) w) in
  load_favorites app = (Return tt, mkNewsApp (set_favorites doc st) u (world app)).
Proof. reflexivity. Qed.

(** ** The favourites toggle *)

Section Favorites.
Implicit Types (favs : list Article) (article fav : Article).

Lemma is_favorite_spec favs article :
  is_favorite favs article = true <-> article_key article ∈ article_key <$> favs.
Proof.
  unfold is_favorite. rewrite existsb_exists, list_elem_of_fmap.
  split.
  - intros (fav & Hin & Heq). exists fav. split; [|by apply list_elem_of_In].
    apply andb_true_iff in Heq as [H1 H2].
    apply bool_decide_eq_true in H1, H2. unfold article_key. by rewrite H1, H2.
  - intros (fav & Heq & Hin). exists fav. split; [by apply list_elem_of_In|].
    unfold article_key in Heq. injection Heq as H1 H2.
    apply andb_true_iff. split; by apply bool_decide_eq_true.
Qed.

Lemma is_favorite_false favs article :
  is_favorite favs article = false <-> article_key article ∉ article_key <$> favs.
Proof.
  rewrite <- is_favorite_spec. by destruct (is_favorite favs article).
Qed.

Lemma is_favorite_elem favs article : article ∈ favs -> is_favorite favs article = true.
Proof. intros Hin. apply is_favorite_spec. by apply list_elem_of_fmap_2. Qed.

Lemma list_remove_Some favs article favs' :
  list_remove article favs = Some favs' ->
  exists l1 l2, favs = l1 ++ article :: l2 /\ favs' = l1 ++ l2 /\ article ∉ l1.
Proof.
  revert favs'. induction favs as [|fav favs IH]; intros favs' H; simpl in H; [done|].
  destruct (decide (fav = article)) as [->|Hne].
  - injection H as <-. exists [], favs. split; [done|]. split; [done|]. apply not_elem_of_nil.
  - destruct (list_remove article favs) as [r|] eqn:Hr; simpl in H; [|done].
    injection H as <-. destruct (IH r eq_refl) as (l1 & l2 & -> & -> & Hnot).
    exists (fav :: l1), l2. split; [done|]. split; [done|].
    apply not_elem_of_cons. split; [congruence | done].
Qed.

Lemma list_remove_None favs article :
  list_remove article favs = None <-> article ∉ favs.
Proof.
  induction favs as [|fav favs IH]; simpl.
  - split; [intros _; apply not_elem_of_nil | done].
  - destruct (decide (fav = article)) as [->|Hne].
    + split; [done|]. intros H. exfalso. apply H. apply list_elem_of_here.
    + rewrite not_elem_of_cons. destruct (list_remove article favs) eqn:Hr; simpl.
      * split; [done|]. intros [_ H]. by apply IH in H.
      * split; [|done]. intros _. split; [congruence|]. by apply IH.
Qed.

Lemma list_remove_app_fresh favs article :
  article ∉ favs -> list_remove article (favs ++ [article]) = Some favs.
Proof.
  induction favs as [|fav favs IH]; intros Hnot; simpl.
  - by rewrite decide_True.
  - apply not_elem_of_cons in Hnot as [Hne Hnot].
    rewrite decide_False by congruence. by rewrite IH.
Qed.

(** What a click does to the list: [None] stands for the [ValueError]. *)
Lemma toggle_favorite_add favs article :
  is_favorite favs article = false ->
  toggle_favorite favs article = Some (favs ++ [article]).
Proof. unfold toggle_favorite. by intros ->. Qed.

(** The favourites after a click, whatever else happens in the handler. *)
Lemma handle_favorite_click_favorites (e : nat) article (app : NewsApp) :
  favorites (state (exec (handle_favorite_click e article) app))
  = default (favorites (state app)) (toggle_favorite (favorites (state app)) article).
Proof.
  unfold handle_favorite_click, toggle_favorite, save_favorites, create_task_display_favorites.
  unfold_monad. simpl.
  destruct (is_favorite (favorites (state app)) article); simpl.
  - destruct (list_remove article (favorites (state app))); simpl; [|done].
    destruct (disk_write_error (world app)); simpl; [done|].
    by destruct (bool_decide _).
  - destruct (disk_write_error (world app)); simpl; [done|].
    by destruct (bool_decide _).
Qed.

Lemma toggle_twice_fresh favs article :
  is_favorite favs article = false ->
  toggle_favorite favs article ≫= (fun favs' => toggle_favorite favs' article) = Some favs.
Proof.
  intros Hfresh. rewrite toggle_favorite_add by done. simpl.
  unfold toggle_favorite.
  assert (article ∉ favs) as Hnot.
  { intros Hin. apply is_favorite_elem in Hin. congruence. }
  rewrite is_favorite_elem by (apply elem_of_app; right; apply list_elem_of_here).
  by apply list_remove_app_fresh.
Qed.

(** A list is a favourites set when no two of its records have the same
    title and description. *)
Lemma fav_set_nil : fav_set [].
Proof. apply NoDup_nil_2. Qed.

Lemma fav_set_removed favs article favs' :
  fav_set favs -> list_remove article favs = Some favs' ->
  fav_set favs' /\ is_favorite favs' article = false.
Proof.
  unfold fav_set. intros Hset Hrem.
  destruct (list_remove_Some _ _ _ Hrem) as (l1 & l2 & -> & -> & _).
  rewrite fmap_app, fmap_cons in Hset.
  apply NoDup_app in Hset as (Hl1 & Hdisj & Hl2).
  apply NoDup_cons in Hl2 as [Hnot2 Hl2].
  split.
  - rewrite fmap_app. apply NoDup_app. split; [done|]. split; [|done].
    intros k Hk1 Hk2. apply (Hdisj k Hk1). by apply list_elem_of_further.
  - apply is_favorite_false. rewrite fmap_app, elem_of_app.
    intros [Hk|Hk]; [|done]. apply (Hdisj _ Hk). apply list_elem_of_here.
Qed.

Lemma fav_set_added favs article :
  fav_set favs -> is_favorite favs article = false -> fav_set (favs ++ [article]).
Proof.
  unfold fav_set. intros Hset Hfresh. apply is_favorite_false in Hfresh.
  rewrite fmap_app. apply NoDup_app. split; [done|]. split.
  - intros k Hk Hk'. apply list_elem_of_singleton in Hk'. by subst k.
  - apply NoDup_singleton.
Qed.

(** A click that returns normally, or that fails only when the file is
    written, flips the membership of the article. *)
Lemma toggle_favorite_flips favs article favs' :
  fav_set favs -> toggle_favorite favs article = Some favs' ->
  is_favorite favs' article = negb (is_favorite favs article).
Proof.
  intros Hset. unfold toggle_favorite.
  destruct (is_favorite favs article) eqn:Hfav; intros Htoggle; simpl.
  - by destruct (fav_set_removed _ _ _ Hset Htoggle).
  - injection Htoggle as <-.
    apply is_favorite_elem, elem_of_app. right. apply list_elem_of_here.
Qed.

(** A click keeps the favourites a set. *)
Lemma handle_favorite_click_fav_set (e : nat) article (app : NewsApp) :
  fav_set (favorites (state app)) ->
  fav_set (favorites (state (exec (handle_favorite_click e article) app))).
Proof.
  intros Hset. rewrite handle_favorite_click_favorites. unfold toggle_favorite.
  destruct (is_favorite (favorites (state app)) article) eqn:Hfav.
  - destruct (list_remove article (favorites (state app))) as [favs'|] eqn:Hrem; simpl; [|done].
    by destruct (fav_set_removed _ _ _ Hset Hrem).
  - simpl. by apply fav_set_added.
Qed.
End Favorites.

(** C4. On a favourites set, two clicks in a row for the same article give
    the article the membership it had before them. *)
Theorem double_toggle_membership (app : NewsApp) (e1 e2 : nat) (article : Article) :
  fav_set (favorites (state app)) ->
  let app1 := exec (handle_favorite_click e1 article) app in
  let app2 := exec (handle_favorite_click e2 article) app1 in
  is_favorite (favorites (state app2)) article
  = is_favorite (favorites (state app)) article.
Proof.
  intros Hset app1 app2. subst app1 app2.
  rewrite !handle_favorite_click_favorites.
  remember (favorites (state app)) as favs eqn:Hfavs. clear Hfavs.
  destruct (is_favorite favs article) eqn:Hfav.
  - assert (Ht : toggle_favorite favs article = list_remove article favs)
      by (unfold toggle_favorite; by rewrite Hfav).
    rewrite Ht.
    destruct (list_remove article favs) as [favs'|] eqn:Hrem; simpl.
    + destruct (fav_set_removed _ _ _ Hset Hrem) as [_ Hgone].
      rewrite toggle_favorite_add by done. simpl.
      apply is_favorite_elem, elem_of_app. right. apply list_elem_of_here.
    + by rewrite Ht.
  - pose proof (toggle_twice_fresh favs article Hfav) as Htwice.
    rewrite toggle_favorite_add in * by done. simpl in *.
    by rewrite Htwice.
Qed.

(** The witness: a favourite is removed and added again. *)
Lemma double_toggle_membership_witness :
  let app := dispatch app15 (ClickFavorite 0 (sample_article 1)) in
  is_favorite (favorites (state app)) (sample_article 1) = true
  /\ is_favorite
       (favorites (state (exec (handle_favorite_click 0 (sample_article 1))
                            (exec (handle_favorite_click 0 (sample_article 1)) app))))
       (sample_article 1)
     = is_favorite (favorites (state app)) (sample_article 1).
Proof.
  split; [by vm_compute|].
  apply (double_toggle_membership
           (dispatch app15 (ClickFavorite 0 (sample_article 1))) 0 0 (sample_article 1)).
  unfold fav_set. vm_compute. apply NoDup_singleton.
Defined.

(** C10. [is_favorite] compares titles and descriptions, [list.remove]
    whole dictionaries: for an article that [is_favorite] accepts and that is
    not itself in the list, the click raises the [ValueError] of
    [list.remove], and changes nothing. *)
Theorem toggle_raises_value_error (app : NewsApp) (e : nat) (article : Article) :
  is_favorite (favorites (state app)) article = true ->
  article ∉ favorites (state app) ->
  handle_favorite_click e article app
  = (Raise (mkExn ValueError "list.remove(x): x not in list"), app).
Proof.
  intros Hfav Hnot. apply list_remove_None in Hnot.
  unfold handle_favorite_click. unfold_monad. simpl.
  by rewrite Hfav, Hnot.
Qed.

(** The witness: the story was made a favourite as the first response
    delivered it; the click on it after the refresh raises. *)
Lemma toggle_raises_value_error_witness :
  favorites (state app_story_refreshed) = [story_v1]
  /\ handle_favorite_click 1 story_v2 app_story_refreshed
     = (Raise (mkExn ValueError "list.remove(x): x not in list"), app_story_refreshed).
Proof.
  split; [by vm_compute|].
  apply (toggle_raises_value_error app_story_refreshed 1 story_v2).
  - by vm_compute.
  - apply (bool_decide_eq_false_1 (story_v2 ∈ favorites (state app_story_refreshed))).
    by vm_compute.
Defined.

(** ** The favourites file *)

(** C7, as stated, fails: the record written for a favourite has every field
    of the article, here its [url]. *)
Lemma saved_favorites_counterexample :
  outcome (handle_favorite_click 0 story_v1) app_story = Return tt
  /\ favorites_file (world (exec (handle_favorite_click 0 story_v1) app_story))
     = FileJSON [story_v1]
  /\ ~ Forall title_description_record [story_v1].
Proof.
  split; [by vm_compute|]. split; [by vm_compute|].
  intros H. apply Forall_cons in H as [H _].
  unfold title_description_record in H.
  assert (Hurl : "url" ∈ dom story_v1).
  { apply elem_of_dom. exists (VStr "https://example.org/a?ref=1"). by vm_compute. }
  apply H in Hurl.
  apply elem_of_union in Hurl as [Hu|Hu]; apply elem_of_singleton in Hu; discriminate.
Qed.

(** C7, amended. After a click that returns normally, the favourites file
    holds the favourites list as it now is, whole dictionaries in the order
    of the list, whatever the file held before; and that list is the former
    one with the article appended or removed. *)
Theorem saved_favorites_whole_list (app : NewsApp) (e : nat) (article : Article) :
  outcome (handle_favorite_click e article) app = Return tt ->
  let app' := exec (handle_favorite_click e article) app in
  favorites_file (world app') = FileJSON (favorites (state app'))
  /\ toggle_favorite (favorites (state app)) article = Some (favorites (state app')).
Proof.
  unfold handle_favorite_click, toggle_favorite, save_favorites, create_task_display_favorites.
  unfold_monad. simpl.
  destruct (is_favorite (favorites (state app)) article); simpl.
  - destruct (list_remove article (favorites (state app))); simpl; [|done].
    destruct (disk_write_error (world app)); simpl; [done|].
    by destruct (bool_decide _).
  - destruct (disk_write_error (world app)); simpl; [done|].
    by destruct (bool_decide _).
Qed.

Lemma saved_favorites_whole_list_witness :
  favorites_file (world app_story) = FileMissing
  /\ favorites_file (world (exec (handle_favorite_click 0 story_v1) app_story))
     = FileJSON (favorites (state (exec (handle_favorite_click 0 story_v1) app_story))).
Proof.
  split; [by vm_compute|].
  apply (saved_favorites_whole_list app_story 0 story_v1). by vm_compute.
Defined.

(** ** The article pipeline *)

Section Pipeline.
Implicit Types (app : NewsApp) (article : Article) (articles : list Article).

Lemma pipeline_frame_refl app : pipeline_frame app app.
Proof. by repeat split. Qed.

Lemma pipeline_frame_trans app1 app2 app3 :
  pipeline_frame app1 app2 -> pipeline_frame app2 app3 -> pipeline_frame app1 app3.
Proof.
  unfold pipeline_frame. intros (?&?&?&?&?&?&?) (?&?&?&?&?&?&?).
  repeat split; congruence.
Qed.

Lemma translate_text_run text app :
  truthy text = true ->
  exists app',
    translate_text text app
    = (Return (or_original (translator (world app) (translator_calls (world app)) text) text),
       app')
    /\ pipeline_frame app app'
    /\ all_articles (state app') = all_articles (state app)
    /\ next_button (ui app') = next_button (ui app)
    /\ translator_calls (world app') = S (translator_calls (world app)).
Proof.
  intros Htext. unfold translate_text. rewrite Htext. unfold_monad. simpl.
  destruct (translator (world app) (translator_calls (world app)) text);
    simpl; eexists; (split; [reflexivity|]); by repeat split.
Qed.

Lemma translate_article_run article app :
  exists app',
    translate_article article app
    = (Return (mkNewsArticle
                 (dict_get_or article "title" (VStr ""))
                 (dict_get_or article "description" (VStr ""))
                 (shown_title (translator (world app)) (translator_calls (world app)) article)
                 (shown_description (translator (world app)) (translator_calls (world app)) article)
                 false),
       app')
    /\ pipeline_frame app app'
    /\ all_articles (state app') = all_articles (state app)
    /\ next_button (ui app') = next_button (ui app)
    /\ translator_calls (world app') = (translator_calls (world app) + calls_for article)%nat.
Proof.
  unfold translate_article, shown_title, shown_description, calls_for.
  set (title := dict_get_or article "title" (VStr "")).
  set (description := dict_get_or article "description" (VStr "")).
  unfold mbind, M_bind, bind, mret, M_ret, ret.
  destruct (truthy title) eqn:Ht.
  - destruct (translate_text_run title app Ht) as (app1 & -> & Hf1 & Ha1 & Hb1 & Hk1).
    destruct (truthy description) eqn:Hd.
    + destruct (translate_text_run description app1 Hd) as (app2 & -> & Hf2 & Ha2 & Hb2 & Hk2).
      exists app2. split.
      * do 3 f_equal.
        destruct Hf1 as (_&_&_&_&->&_). rewrite Hk1. do 2 f_equal. lia.
      * split; [by eapply pipeline_frame_trans|].
        split; [congruence|]. split; [congruence|]. rewrite Hk2, Hk1. simpl. lia.
    + exists app1. split; [done|]. split; [done|].
      split; [done|]. split; [done|]. rewrite Hk1. simpl. lia.
  - destruct (truthy description) eqn:Hd.
    + destruct (translate_text_run description app Hd) as (app2 & -> & Hf2 & Ha2 & Hb2 & Hk2).
      exists app2. split.
      * do 3 f_equal. do 2 f_equal. lia.
      * split; [done|]. split; [done|]. split; [done|]. rewrite Hk2. simpl. lia.
    + exists app. split; [done|]. split; [apply pipeline_frame_refl|].
      split; [done|]. split; [done|]. simpl. lia.
Qed.

(** One round of the loop: one container more, for this article. *)
Lemma append_article_run article app :
  exists app' button,
    append_article article app = (Return tt, app')
    /\ pipeline_frame app app'
    /\ all_articles (state app')
       = all_articles (state app)
         ++ [mkContainer
               (shown_title (translator (world app)) (translator_calls (world app)) article)
               (shown_description (translator (world app)) (translator_calls (world app)) article)
               button article]
    /\ translator_calls (world app') = (translator_calls (world app) + calls_for article)%nat.
Proof.
  unfold append_article. unfold mbind, M_bind, bind.
  destruct (translate_article_run article app) as (app1 & -> & Hf & Ha & Hb & Hk).
  unfold create_article_container. unfold_monad. simpl.
  eexists _, _. split; [reflexivity|]. simpl.
  destruct Hf as (?&?&?&?&?&?&?).
  split; [by repeat split|]. split; [by rewrite Ha|done].
Qed.

Lemma enriched_raw translate k articles containers :
  enriched translate k articles containers -> raw_article <$> containers = articles.
Proof.
  revert k containers. induction articles as [|a l IH]; intros k [|c cs] H; simpl in *; try done.
  destruct H as (-> & _ & _ & H). f_equal. by eapply IH.
Qed.

Lemma enriched_lookup translate k articles containers i article c :
  enriched translate k articles containers ->
  articles !! i = Some article -> containers !! i = Some c ->
  raw_article c = article
  /\ text_title c = shown_title translate (k + calls_before i articles) article
  /\ text_description c = shown_description translate (k + calls_before i articles) article.
Proof.
  revert k containers i. induction articles as [|a l IH]; intros k [|c' cs] i H Ha Hc;
    simpl in *; try done.
  destruct H as (Hraw & Ht & Hd & H). destruct i as [|i]; simpl in *.
  - injection Ha as <-. injection Hc as <-. unfold calls_before. simpl.
    by rewrite Nat.add_0_r.
  - destruct (IH _ _ _ H Ha Hc) as (? & ? & ?).
    unfold calls_before in *. simpl. rewrite Nat.add_assoc. done.
Qed.

Lemma for_each_append_article_run articles app :
  exists app' containers,
    for_each articles append_article app = (Return tt, app')
    /\ pipeline_frame app app'
    /\ all_articles (state app') = all_articles (state app) ++ containers
    /\ enriched (translator (world app)) (translator_calls (world app)) articles containers.
Proof.
  revert app. induction articles as [|a l IH]; intros app; simpl.
  - exists app, []. split; [done|]. split; [apply pipeline_frame_refl|].
    by rewrite app_nil_r.
  - unfold mbind, M_bind, bind.
    destruct (append_article_run a app) as (app1 & button & -> & Hf1 & Ha1 & Hk1).
    destruct (IH app1) as (app2 & cs & -> & Hf2 & Ha2 & Hen).
    eexists app2, (_ :: cs). split; [done|].
    split; [by eapply pipeline_frame_trans|].
    split; [by rewrite Ha2, Ha1, <- app_assoc|].
    simpl. repeat split.
    destruct Hf1 as (_&_&_&_&<-&_). by rewrite <- Hk1.
Qed.
End Pipeline.

Lemma display_articles_all_articles (page_num : Z) (app : NewsApp) :
  all_articles (state (exec (display_articles page_num) app)) = all_articles (state app).
Proof.
  unfold display_articles, floordiv. unfold_monad. simpl.
  by destruct (articles_per_page (state app) =? 0).
Qed.

(** [process_news_response] for a batch that is not empty. *)
Lemma process_news_response_batch (a : Article) (l : list Article)
    (country_code : string) (app : NewsApp) :
  process_news_response (Some (a :: l)) country_code app
  = match for_each (a :: l) append_article
            (on_ui (set_status_text
                      (pretty (length (a :: l)) +:+ "件のニュースを取得しました")) app) with
    | (Return _, app1) =>
        display_articles 0
          (on_ui (set_pagination_row
                    (bool_decide (articles_per_page (state app1)
                                  < Z.of_nat (length (all_articles (state app1))))))
                 app1)
    | (Raise e, app1) => (Raise e, app1)
    end.
Proof. reflexivity. Qed.

(** C3. [process_news_response], for a batch of articles, adds one container
    for each article of the batch, in the order of the batch, whatever the
    translator does; and where the call of the translator made for the title
    (the description) of an article raises, the text shown for it is the
    title (the description) itself.  The call for the title of article [i]
    is the call number [k0 + calls_before i articles]; the call for its
    description comes next. *)
Theorem translation_failure_keeps_article (app : NewsApp) (articles : list Article)
    (country_code : string) :
  articles <> [] ->
  let app' := exec (process_news_response (Some articles) country_code) app in
  let translate := translator (world app) in
  let k0 := translator_calls (world app) in
  (articles_per_page (state app) <> 0 ->
   outcome (process_news_response (Some articles) country_code) app = Return tt)
  /\ raw_article <$> all_articles (state app')
     = (raw_article <$> all_articles (state app)) ++ articles
  /\ forall (i : nat) (article : Article) (c : Container),
      articles !! i = Some article ->
      all_articles (state app') !! (length (all_articles (state app)) + i)%nat = Some c ->
      let title := dict_get_or article "title" (VStr "") in
      let description := dict_get_or article "description" (VStr "") in
      let k := (k0 + calls_before i articles)%nat in
      raw_article c = article
      /\ (truthy title = true ->
          forall e, translate k title = Raise e -> text_title c = title)
      /\ (truthy description = true ->
          forall e, translate (k + if truthy title then 1 else 0)%nat description = Raise e ->
                    text_description c = description).
Proof.
  intros Hne app' translate k0. subst app' translate k0.
  destruct articles as [|a l]; [done|]. clear Hne.
  unfold exec, outcome. rewrite process_news_response_batch.
  remember (a :: l) as articles eqn:Harticles.
  set (app0 := on_ui _ app).
  destruct (for_each_append_article_run articles app0)
    as (app1 & containers & -> & Hframe & Hall & Hen).
  set (app2 := on_ui _ app1).
  assert (Hall2 : all_articles (state app2) = all_articles (state app) ++ containers)
    by (subst app2; simpl; by rewrite Hall).
  assert (Hpp2 : articles_per_page (state app2) = articles_per_page (state app))
    by (subst app2; simpl; by destruct Hframe as (_&->&_)).
  pose proof (display_articles_all_articles 0 app2) as Hshown. unfold exec in Hshown.
  split; [|split].
  - intros Hpp. rewrite display_articles_run by congruence. done.
  - rewrite Hshown, Hall2, fmap_app. f_equal. by eapply enriched_raw.
  - intros i article c Hi Hc. rewrite Hshown, Hall2 in Hc.
    rewrite lookup_app_r in Hc by lia.
    replace (length (all_articles (state app)) + i - length (all_articles (state app)))%nat
      with i in Hc by lia.
    destruct (enriched_lookup _ _ _ _ _ _ _ Hen Hi Hc) as (Hraw & Ht & Hd).
    change (translator (world app0)) with (translator (world app)) in *.
    change (translator_calls (world app0)) with (translator_calls (world app)) in *.
    split; [done|]. split.
    + intros Htruthy e He. rewrite Ht. unfold shown_title. by rewrite Htruthy, He.
    + intros Htruthy e He. rewrite Hd. unfold shown_description. by rewrite Htruthy, He.
Qed.

(** The witness: with a translator that raises at every second call, the
    second article of a batch of two keeps its title, and has its
    description translated. *)
Lemma translation_failure_keeps_article_witness :
  let app := NewsApp_init (sample_world FileMissing translator_flaky []) in
  let app' := exec (process_news_response (Some (sample_articles 2)) "jp") app in
  raw_article <$> all_articles (state app') = sample_articles 2
  /\ (forall c, all_articles (state app') !! 1%nat = Some c ->
                text_title c = VStr "T2")
  /\ (text_description <$> all_articles (state app') !! 1%nat) = Some (VStr "ja:D2").
Proof.
  intros app app'.
  pose proof (translation_failure_keeps_article app (sample_articles 2) "jp"
                ltac:(discriminate)) as (_ & Hraw & Hfields).
  split; [exact Hraw|]. split; [|by vm_compute].
  intros c Hc.
  destruct (Hfields 1%nat (sample_article 2) c eq_refl Hc) as (_ & Htitle & _).
  exact (Htitle eq_refl (mkExn ExternalError "Request exception") eq_refl).
Defined.

(** ** Properties kept by methods *)

Section Preserves.
Context (I : NewsApp -> Prop).

Lemma preserves_ret {A : Type} (a : A) : preserves I (mret a).
Proof. by intros app H. Qed.

Lemma preserves_raise {A : Type} (e : Exn) : preserves I (@raise A e).
Proof. by intros app H. Qed.

Lemma preserves_gets {A : Type} (f : NewsApp -> A) : preserves I (gets f).
Proof. by intros app H. Qed.

Lemma preserves_modify (f : NewsApp -> NewsApp) :
  (forall app, I app -> I (f app)) -> preserves I (modify f).
Proof. intros Hf app H. by apply Hf. Qed.

Lemma preserves_bind {A B : Type} (c : M A) (k : A -> M B) :
  preserves I c -> (forall a, preserves I (k a)) -> preserves I (c ≫= k).
Proof.
  intros Hc Hk app H. unfold mbind, M_bind, bind.
  specialize (Hc app H). destruct (c app) as [[a|e] app']; simpl in *; [|done].
  by apply Hk.
Qed.

Lemma preserves_try_except {A : Type} (c : M A) (handler : Exn -> M A) :
  preserves I c -> (forall e, preserves I (handler e)) -> preserves I (try_except c handler).
Proof.
  intros Hc Hh app H. unfold try_except.
  specialize (Hc app H). destruct (c app) as [[a|e] app']; simpl in *; [done|].
  by apply Hh.
Qed.

Lemma preserves_try_finally {A : Type} (c : M A) (fin : M unit) :
  preserves I c -> preserves I fin -> preserves I (try_finally c fin).
Proof.
  intros Hc Hf app H. unfold try_finally.
  specialize (Hc app H). destruct (c app) as [r app']; simpl in *.
  specialize (Hf app' Hc). by destruct (fin app') as [[[]|e] app''].
Qed.

Lemma preserves_for_each {A : Type} (l : list A) (body : A -> M unit) :
  (forall x, preserves I (body x)) -> preserves I (for_each l body).
Proof.
  intros Hbody. induction l as [|x l IH]; simpl.
  - apply preserves_ret.
  - apply preserves_bind; [apply Hbody | by intros _].
Qed.

Lemma preserves_floordiv (a b : Z) : preserves I (floordiv a b).
Proof. intros app H. unfold floordiv. by destruct (b =? 0). Qed.
End Preserves.

(** The structure of a method is taken apart, lemmas already proved for the
    methods it calls are used, and what is left are the updates of the
    application, which are closed when they do not touch what the property
    reads. *)
Create HintDb kept discriminated.

Ltac preserves_step :=
  first
    [ solve [eauto with kept nocore]
    | lazymatch goal with
      | |- preserves _ (mret _) => apply preserves_ret
      | |- preserves _ (raise _) => apply preserves_raise
      | |- preserves _ (gets _) => apply preserves_gets
      | |- preserves _ (floordiv _ _) => apply preserves_floordiv
      | |- preserves _ (for_each _ _) => apply preserves_for_each; intros ?
      | |- preserves _ (try_except _ _) => apply preserves_try_except; [|intros ?]
      | |- preserves _ (try_finally _ _) => apply preserves_try_finally
      | |- preserves _ (modify _) => apply preserves_modify; intros ? ?; eauto with kept
      | |- preserves _ (if ?b then _ else _) => destruct b
      | |- preserves _ (match ?x with _ => _ end) => destruct x
      | |- preserves _ (_ ≫= _) => apply preserves_bind; [|intros ?]
      end ].

Ltac preserves_auto := repeat preserves_step.

(** *** Methods that neither change the favourites nor emit a periodic event

    A property that no update of the widgets, no update of the state other
    than of the favourites, no update of the world other than of the trace
    and no event other than a periodic one can break is kept by all the
    methods below. *)
Section Kept.
Context (I : NewsApp -> Prop).
Hypothesis I_state : forall (f : NewsState -> NewsState) app,
  (forall st, favorites (f st) = favorites st) -> I app -> I (on_state f app).
Hypothesis I_ui : forall (f : Widgets -> Widgets) app, I app -> I (on_ui f app).
Hypothesis I_world : forall (f : World -> World) app,
  (forall w, trace (f w) = trace w) -> I app -> I (on_world f app).
Hypothesis I_emit : forall e, ~ periodic_event e -> preserves I (emit e).
Hypothesis I_click : forall e article, preserves I (handle_favorite_click e article).

#[local] Hint Resolve I_state I_ui I_world : kept.
#[local] Hint Extern 1 (preserves _ (emit _)) => apply I_emit; simpl; tauto : kept.
#[local] Hint Extern 1 (forall _, _ = _) => intros ?; reflexivity : kept.

Lemma display_articles_kept (page_num : Z) : preserves I (display_articles page_num).
Proof. unfold display_articles. preserves_auto. Qed.
#[local] Hint Resolve display_articles_kept : kept.

Lemma change_page_kept (delta : Z) : preserves I (change_page delta).
Proof. unfold change_page. preserves_auto. Qed.

Lemma translate_text_kept (text : Value) : preserves I (translate_text text).
Proof. unfold translate_text, print. preserves_auto. Qed.
#[local] Hint Resolve translate_text_kept : kept.

Lemma append_article_kept (article : Article) : preserves I (append_article article).
Proof.
  unfold append_article, translate_article, create_article_container. preserves_auto.
Qed.
#[local] Hint Resolve append_article_kept : kept.

Lemma fetch_headlines_kept (country_code : string) :
  preserves I (fetch_headlines country_code).
Proof.
  unfold fetch_headlines, process_news_response, countries_item, show_loading, update_status.
  preserves_auto.
Qed.
#[local] Hint Resolve fetch_headlines_kept : kept.

Lemma display_favorites_kept : preserves I display_favorites.
Proof. unfold display_favorites. preserves_auto. Qed.
#[local] Hint Resolve display_favorites_kept : kept.

Lemma handler_kept (cmd : Command) : preserves I (handler cmd).
Proof.
  destruct cmd; simpl.
  - apply change_page_kept.
  - apply change_page_kept.
  - unfold refresh_news. preserves_auto.
  - unfold handle_tab_change. preserves_auto.
  - apply I_click.
Qed.

Lemma run_display_favorites_kept (n : nat) : preserves I (run_display_favorites n).
Proof. induction n as [|n IH]; simpl; preserves_auto. Qed.
#[local] Hint Resolve run_display_favorites_kept : kept.

Lemma run_tasks_kept : preserves I run_tasks.
Proof. unfold run_tasks. preserves_auto. Qed.

Lemma dispatch_kept (app : NewsApp) (cmd : Command) : I app -> I (dispatch app cmd).
Proof.
  intros H. unfold dispatch, exec. by apply run_tasks_kept, handler_kept.
Qed.

(** The property holds all along a run when it holds of the application as
    [NewsApp(page)] builds it. *)
Lemma run_kept (w : World) (cmds : list Command) :
  I (NewsApp_init w) -> I (run w cmds).
Proof.
  intros Hinit. unfold run.
  assert (Hmain : I (snd (main w))) by (unfold main; by apply fetch_headlines_kept).
  revert Hmain. generalize (snd (main w)).
  induction cmds as [|cmd cmds IH]; intros app Happ; simpl; [done|].
  apply IH. by apply dispatch_kept.
Qed.
End Kept.

(** ** The periodic update *)

Lemma emit_quiet (e : Event) :
  ~ periodic_event e -> preserves no_periodic_update (emit e).
Proof.
  intros He app H. unfold no_periodic_update in *. simpl.
  apply Forall_app. split; [done|]. by apply Forall_singleton.
Qed.

Lemma handle_favorite_click_quiet (e : nat) (article : Article) :
  preserves no_periodic_update (handle_favorite_click e article).
Proof.
  pose proof emit_quiet.
  unfold handle_favorite_click, save_favorites, create_task_display_favorites.
  preserves_auto; try done.
  apply emit_quiet. simpl. tauto.
Qed.

Lemma load_favorites_quiet : preserves no_periodic_update load_favorites.
Proof.
  unfold load_favorites, print. preserves_auto; try done; apply emit_quiet; simpl; tauto.
Qed.

(** C2. In no run of the program, [main] and then any commands of the user
    in any world, is there a [Sleep] or a notification: nothing starts
    [check_for_updates]. *)
Theorem periodic_update_never_runs (w : World) (cmds : list Command) :
  no_periodic_update (run (set_trace [] w) cmds).
Proof.
  apply run_kept.
  - by intros f app _ H.
  - by intros f app H.
  - intros f app Hf H. unfold no_periodic_update in *. simpl. by rewrite Hf.
  - apply emit_quiet.
  - apply handle_favorite_click_quiet.
  - apply load_favorites_quiet. apply Forall_nil_2.
Qed.

Lemma handle_favorite_click_favorites_are_set (e : nat) (article : Article) :
  preserves favorites_are_set (handle_favorite_click e article).
Proof. intros app H. by apply handle_favorite_click_fav_set. Qed.

(** The favourites are a set all along a run, in a world with no favourites
    file or with one that holds a set; the file that the program itself
    writes holds the favourites, so a set again. *)
Lemma run_favorites_are_set (w : World) (cmds : list Command) :
  file_is_set (favorites_file w) -> favorites_are_set (run w cmds).
Proof.
  intros Hfile. apply run_kept.
  - intros f app Hf H. unfold favorites_are_set in *. simpl. by rewrite Hf.
  - by intros f app H.
  - by intros f app _ H.
  - by intros e _ app H.
  - apply handle_favorite_click_favorites_are_set.
  - unfold NewsApp_init, exec, load_favorites, favorites_are_set. unfold_monad. simpl.
    destruct (favorites_file w); simpl in *; first [done | apply fav_set_nil].
Qed.

(** [fetch_headlines] returns normally, whatever happens. *)
Lemma fetch_headlines_returns (country_code : string) (app : NewsApp) :
  outcome (fetch_headlines country_code) app = Return tt.
Proof.
  unfold outcome, fetch_headlines, try_finally, try_except.
  match goal with |- context [?c app] =>
    lazymatch c with (_ ≫= _) => destruct (c app) as [[[]|e] app'] end end;
    reflexivity.
Qed.

(** What a round of [check_for_updates] would do, were it started: sleep
    for 300 seconds, fetch the headlines of the current country, and show
    the notification, whether the fetch has succeeded or not. *)
Lemma check_for_updates_round_run (app : NewsApp) :
  check_for_updates_round app
  = (Return tt,
     exec (emit (ShowSnackBar "新しいニュースが利用可能です"))
       (exec (fetch_headlines (current_country (state app)))
          (exec (emit (Sleep 300)) app))).
Proof.
  unfold check_for_updates_round. unfold mbind, M_bind, bind, exec.
  change (emit (Sleep 300) app) with (Return tt, snd (emit (Sleep 300) app)).
  cbv iota beta. unfold gets at 1. cbv iota beta.
  change (current_country (state (snd (emit (Sleep 300) app))))
    with (current_country (state app)).
  pose proof (fetch_headlines_returns (current_country (state app))
                (snd (emit (Sleep 300) app))) as Hret.
  unfold outcome in Hret.
  destruct (fetch_headlines _ _) as [r app']. simpl in Hret. subst r. reflexivity.
Qed.

(** ** The page and the articles *)

Lemma change_page_run (delta : Z) (app : NewsApp) :
  articles_per_page (state app) <> 0 ->
  let new_page := current_page (state app) + delta in
  change_page delta app
  = if (0 <=? new_page)
       && (new_page <? total_pages (Z.of_nat (length (all_articles (state app))))
                                   (articles_per_page (state app)))
    then display_articles new_page app
    else (Return tt, app).
Proof.
  intros Hpp new_page. unfold change_page. unfold_monad. simpl. fold new_page.
  destruct (0 <=? new_page); [|done]. simpl.
  rewrite floordiv_nonzero by done. unfold total_pages.
  by destruct (new_page <? _).
Qed.

(** [change_page] keeps the page inside the pages there are. *)
Lemma change_page_page_invariant (delta : Z) (app : NewsApp) :
  0 < articles_per_page (state app) ->
  page_invariant (state app) ->
  page_invariant (state (exec (change_page delta) app)).
Proof.
  intros Hpp Hinv. unfold exec. rewrite change_page_run by lia.
  destruct (Z.leb_spec 0 (current_page (state app) + delta)) as [Hlo|Hlo];
    simpl; [|done].
  destruct (Z.ltb_spec (current_page (state app) + delta)
              (total_pages (Z.of_nat (length (all_articles (state app))))
                           (articles_per_page (state app)))) as [Hhi|Hhi];
    simpl; [|done].
  rewrite display_articles_run by lia. unfold page_invariant in *. simpl.
  destruct (all_articles (state app)) as [|c l] eqn:Hall; [|done].
  simpl in Hhi. rewrite total_pages_zero in Hhi by done. lia.
Qed.

(** [display_articles(0)] sets a page that is one of the pages there are. *)
Lemma display_articles_zero_page_invariant (app : NewsApp) :
  0 < articles_per_page (state app) ->
  page_invariant (state (exec (display_articles 0) app)).
Proof.
  intros Hpp. unfold exec. rewrite display_articles_run by lia.
  unfold page_invariant. simpl.
  destruct (all_articles (state app)) as [|c l] eqn:Hall; [done|].
  split; [done|]. apply total_pages_pos; [|done]. simpl length. lia.
Qed.

(** A fetch that is answered with another status than 200 empties the list
    of articles and leaves the page as it is. *)
Lemma fetch_headlines_bad_status (country_code : string) (app : NewsApp)
    (status : Z) (json : Result (option (list Article))) :
  feed (world app) (feed_calls (world app)) country_code = Response status json ->
  status <> 200 ->
  state (exec (fetch_headlines country_code) app) = set_all_articles [] (state app).
Proof.
  intros Hfeed Hstatus. unfold exec, fetch_headlines, show_loading, update_status.
  unfold_monad. simpl. rewrite Hfeed.
  by rewrite bool_decide_eq_false_2.
Qed.

(** A fetch that succeeds with no articles: the status says so, the list of
    articles and the page are as after any other fetch that shows nothing,
    and the pagination row and text are left as they were. *)
Lemma fetch_headlines_empty (country_code name : string) (app : NewsApp)
    (data : option (list Article)) :
  assoc country_code countries = Some name ->
  feed (world app) (feed_calls (world app)) country_code = Response 200 (Return data) ->
  default [] data = [] ->
  let app' := exec (fetch_headlines country_code) app in
  outcome (fetch_headlines country_code) app = Return tt
  /\ state app' = set_all_articles [] (state app)
  /\ ui app'
     = mkWidgets (name +:+ "のニュースが見つかりませんでした。") false []
                 (pagination_text (ui app)) (pagination_row (ui app))
                 (tabs (ui app)) (icons (ui app)) (next_button (ui app)).
Proof.
  intros Hname Hfeed Hdata.
  unfold exec, outcome, fetch_headlines, show_loading, update_status.
  unfold_monad. simpl. rewrite Hfeed. simpl.
  unfold process_news_response, countries_item. rewrite Hdata, Hname.
  unfold update_status. unfold_monad. simpl. done.
Qed.

(** C1 fails on the code. Eleven articles are fetched, the user goes to the
    second page, and the refresh is answered with status 500: the list of
    articles is empty, and the page is still 1. *)
Theorem fetch_failure_leaves_stale_page :
  let w := sample_world FileMissing translator_ok
             [feed_ok (sample_articles 11); Response 500 (Return None)] in
  let before := run w [ClickForward] in
  let after := dispatch before ClickRefresh in
  page_invariant (state before)
  /\ all_articles (state after) = []
  /\ current_page (state after) = 1
  /\ ~ page_invariant (state after).
Proof.
  vm_compute.
  split; [split; [discriminate|reflexivity]|].
  split; [reflexivity|]. split; [reflexivity|]. discriminate.
Qed.

(** C6 fails on the code. Eleven articles are fetched, so that the
    pagination row is shown, and the refresh succeeds with no articles: the
    status says that no news was found, nothing is loading, the list of
    articles is empty, and the pagination row is still shown. *)
Theorem empty_fetch_leaves_pagination_row :
  let w := sample_world FileMissing translator_ok
             [feed_ok (sample_articles 11); feed_ok []] in
  let app := run w [ClickRefresh] in
  status_text (ui app) = "日本のニュースが見つかりませんでした。"
  /\ loading_container (ui app) = false
  /\ all_articles (state app) = []
  /\ headlines_list (ui app) = []
  /\ pagination_row (ui app) = true.
Proof. vm_compute. repeat split. Qed.

(** On the first fetch the pagination row is hidden, as the widgets are
    created so. *)
Lemma first_empty_fetch_hides_pagination_row (w : World) (data : option (list Article)) :
  feed w (feed_calls w) "jp" = Response 200 (Return data) ->
  default [] data = [] ->
  pagination_row (ui (snd (main w))) = false
  /\ all_articles (state (snd (main w))) = []
  /\ status_text (ui (snd (main w))) = "日本のニュースが見つかりませんでした。".
Proof.
  intros Hfeed Hdata. unfold main.
  assert (Hfeed' : feed (world (NewsApp_init w)) (feed_calls (world (NewsApp_init w))) "jp"
                   = Response 200 (Return data)).
  { unfold NewsApp_init, exec, load_favorites. unfold_monad. simpl.
    by destruct (favorites_file w). }
  destruct (fetch_headlines_empty "jp" "日本" (NewsApp_init w) data eq_refl Hfeed' Hdata)
    as (_ & Hst & Hui).
  unfold exec in *. rewrite Hst, Hui. simpl.
  split; [|done].
  unfold NewsApp_init, exec, load_favorites. unfold_monad. simpl.
  by destruct (favorites_file w).
Qed.

(** ** More on the article pipeline *)

(** [translate_text] never raises: for a text that is empty or [None] it
    answers the empty string without a call of the translator; for any other
    text it makes one call, and answers the translation, or the text itself
    when the call raises.  State and widgets are not touched. *)
Theorem translate_text_never_raises (text : Value) (app : NewsApp) :
  let app' := exec (translate_text text) app in
  outcome (translate_text text) app
  = Return (if truthy text
            then or_original (translator (world app) (translator_calls (world app)) text) text
            else VStr "")
  /\ translator_calls (world app')
     = (translator_calls (world app) + if truthy text then 1 else 0)%nat
  /\ state app' = state app /\ ui app' = ui app.
Proof.
  unfold exec, outcome, translate_text. destruct (truthy text) eqn:Htext; simpl.
  - unfold_monad. simpl.
    destruct (translator (world app) (translator_calls (world app)) text);
      simpl; repeat split; lia.
  - unfold_monad. simpl. repeat split. lia.
Qed.

(** [translate_article] never raises.  A field that is absent, [None] or
    empty gets its fixed text, and costs no call of the translator; any
    other field costs one call, and gets the translation, or the field
    itself when the call raises.  The title is translated first. *)
Theorem translate_article_fields (article : Article) (app : NewsApp) :
  let title := dict_get_or article "title" (VStr "") in
  let description := dict_get_or article "description" (VStr "") in
  let translate := translator (world app) in
  let k := translator_calls (world app) in
  outcome (translate_article article) app
  = Return (mkNewsArticle title description
              (if truthy title then or_original (translate k title) title
               else VStr "タイトルなし")
              (if truthy description
               then or_original
                      (translate (k + if truthy title then 1 else 0)%nat description)
                      description
               else VStr "内容なし")
              false)
  /\ translator_calls (world (exec (translate_article article) app))
     = (k + (if truthy title then 1 else 0)
          + (if truthy description then 1 else 0))%nat.
Proof.
  intros title description translate k. unfold outcome, exec.
  destruct (translate_article_run article app) as (app' & -> & _ & _ & _ & Hk).
  split; [reflexivity|]. simpl. rewrite Hk. unfold calls_for. fold title description. lia.
Qed.

(** ** More on [fetch_headlines] *)


(** [fetch_headlines] returns normally and leaves the loading indicator off,
    whatever the feed and the translator do. *)
Theorem fetch_headlines_ends_loading (country_code : string) (app : NewsApp) :
  outcome (fetch_headlines country_code) app = Return tt
  /\ loading_container (ui (exec (fetch_headlines country_code) app)) = false.
Proof.
  unfold outcome, exec, fetch_headlines, try_finally, try_except.
  match goal with |- context [?c app] =>
    lazymatch c with (_ ≫= _) => destruct (c app) as [[[]|e] app'] end end;
    by split.
Qed.

(** When the request raises, or the body of a response with status 200
    cannot be decoded, the status line shows the message of the exception;
    nothing is shown, the translator is not called, and the page, the
    favourites and the pagination widgets are as before. *)
Theorem fetch_headlines_exception (country_code : string) (app : NewsApp) (e : Exn) :
  reply_exception (feed (world app) (feed_calls (world app)) country_code) = Some e ->
  let app' := exec (fetch_headlines country_code) app in
  state app' = set_all_articles [] (state app)
  /\ ui app'
     = mkWidgets ("エラーが発生しました: " +:+ exn_str e) false []
                 (pagination_text (ui app)) (pagination_row (ui app))
                 (tabs (ui app)) (icons (ui app)) (next_button (ui app))
  /\ translator_calls (world app') = translator_calls (world app).
Proof.
  intros Hreply. unfold exec, fetch_headlines, show_loading, update_status.
  unfold_monad. simpl.
  destruct (feed (world app) (feed_calls (world app)) country_code) as [e'|status [data|e']];
    simpl in *; try done.
  - by injection Hreply as ->.
  - destruct (bool_decide (status = 200)); simpl; [|done]. by injection Hreply as ->.
Qed.

(** A response with another status than 200 is not decoded: the status line
    shows the status code, whatever the body is; nothing is shown, and the
    translator is not called. *)
Theorem fetch_headlines_status_code (country_code : string) (app : NewsApp)
    (status : Z) (json : Result (option (list Article))) :
  feed (world app) (feed_calls (world app)) country_code = Response status json ->
  status <> 200 ->
  let app' := exec (fetch_headlines country_code) app in
  state app' = set_all_articles [] (state app)
  /\ ui app'
     = mkWidgets ("ニュースの取得に失敗しました。(エラーコード: " +:+ pretty status +:+ ")")
                 false [] (pagination_text (ui app)) (pagination_row (ui app))
                 (tabs (ui app)) (icons (ui app)) (next_button (ui app))
  /\ translator_calls (world app') = translator_calls (world app).
Proof.
  intros Hfeed Hstatus. unfold exec, fetch_headlines, show_loading, update_status.
  unfold_monad. simpl. rewrite Hfeed. by rewrite bool_decide_eq_false_2.
Qed.


(** [fetch_headlines] for a response with status 200 that can be decoded. *)
Lemma fetch_headlines_ok_run (country_code : string) (app : NewsApp)
    (data : option (list Article)) :
  feed (world app) (feed_calls (world app)) country_code = Response 200 (Return data) ->
  fetch_headlines country_code app
  = match process_news_response data country_code (awaiting_response country_code app) with
    | (Return _, app1) => (Return tt, on_ui (set_loading_container false) app1)
    | (Raise e, app1) =>
        (Return tt,
         on_ui (set_loading_container false)
           (on_ui (set_status_text ("エラーが発生しました: " +:+ exn_str e)) app1))
    end.
Proof.
  intros Hfeed. unfold fetch_headlines, show_loading, update_status. unfold_monad. simpl.
  fold (awaiting_response country_code app). rewrite Hfeed. simpl.
  by destruct (process_news_response data country_code _) as [[[]|e] app1].
Qed.

(** A fetch that succeeds with articles: there is one container for each
    article of the response, in order; the page is the first one, and the
    list on the screen is the first page; the status line tells the number
    of articles; the pagination row is shown if and only if they do not fit
    on one page; the favourites are as before. *)
Theorem fetch_headlines_success (country_code : string) (app : NewsApp)
    (articles : list Article) :
  feed (world app) (feed_calls (world app)) country_code
  = Response 200 (Return (Some articles)) ->
  articles <> [] ->
  0 < articles_per_page (state app) ->
  let app' := exec (fetch_headlines country_code) app in
  let per_page := articles_per_page (state app) in
  raw_article <$> all_articles (state app') = articles
  /\ current_page (state app') = 0
  /\ headlines_list (ui app')
     = ArticleControl <$> take (Z.to_nat per_page) (all_articles (state app'))
  /\ status_text (ui app') = pretty (length articles) +:+ "件のニュースを取得しました"
  /\ pagination_row (ui app') = bool_decide (per_page < Z.of_nat (length articles))
  /\ pagination_text (ui app')
     = "ページ 1/" +:+ pretty (total_pages (Z.of_nat (length articles)) per_page)
  /\ loading_container (ui app') = false
  /\ favorites (state app') = favorites (state app).
Proof.
  intros Hfeed Hne Hpp app' per_page. subst app' per_page.
  unfold exec. rewrite (fetch_headlines_ok_run _ _ _ Hfeed).
  destruct articles as [|a l]; [done|]. clear Hne.
  rewrite process_news_response_batch.
  remember (a :: l) as articles eqn:Harticles.
  set (app0 := on_ui _ (awaiting_response country_code app)).
  destruct (for_each_append_article_run articles app0)
    as (app1 & containers & -> & Hframe & Hall & Hen).
  destruct Hframe as (Hcp & Hpp1 & Hcc & Hfav & Htr & Hrow & Hst).
  change (articles_per_page (state app0)) with (articles_per_page (state app)) in Hpp1.
  change (favorites (state app0)) with (favorites (state app)) in Hfav.
  change (all_articles (state app0)) with (@nil Container) in Hall. simpl in Hall.
  change (status_text (ui app0))
    with (pretty (length articles) +:+ "件のニュースを取得しました") in Hst.
  rewrite display_articles_run by (simpl; lia). simpl.
  assert (Hlen : length containers = length articles).
  { pose proof (enriched_raw _ _ _ _ Hen) as Hraw.
    apply (f_equal length) in Hraw. by rewrite length_fmap in Hraw. }
  rewrite Hall, Hpp1, Hlen.
  split; [by eapply enriched_raw|]. split; [done|]. split.
  { f_equal.
    pose proof (current_articles_window containers 0 (articles_per_page (state app)) Hpp)
      as Hw.
    change (Z.of_nat 0) with 0 in Hw. by rewrite Hw. }
  split; [done|]. split; [done|]. split; [reflexivity|]. split; done.
Qed.

(** ** The page, along a run *)

Section ShownPage.
Implicit Types (app : NewsApp).











End ShownPage.


(** ** More on the favourites *)

(** [is_favorite] reads the title and the description only: two articles
    that agree on both are favourites together, whatever their other fields
    are; an absent field counts as [None]. *)
Theorem is_favorite_by_key (favs : list Article) (article article' : Article) :
  article_key article = article_key article' ->
  is_favorite favs article = is_favorite favs article'.
Proof.
  intros Hkey.
  destruct (is_favorite favs article') eqn:Hfav.
  - apply is_favorite_spec. rewrite Hkey. by apply is_favorite_spec.
  - apply is_favorite_false. rewrite Hkey. by apply is_favorite_false.
Qed.

(** When the favourites file cannot be opened for writing, the click raises
    the error of [open], after the list in memory has been changed: the
    file keeps what it held, and neither the icon nor the favourites view is
    updated. *)
Theorem handle_favorite_click_save_fails (app : NewsApp) (e : nat) (article : Article)
    (err : Exn) (favs' : list Article) :
  disk_write_error (world app) = Some err ->
  toggle_favorite (favorites (state app)) article = Some favs' ->
  handle_favorite_click e article app = (Raise err, on_state (set_favorites favs') app).
Proof.
  intros Herr. unfold toggle_favorite, handle_favorite_click, save_favorites.
  unfold_monad. simpl.
  destruct (is_favorite (favorites (state app)) article); simpl.
  - intros ->. simpl. by rewrite Herr.
  - intros [= <-]. by rewrite Herr.
Qed.

(** After a click that returns normally, on a favourites set, the icon of
    the clicked button shows the new membership of the article, which is
    the opposite of the old one. *)
Theorem handle_favorite_click_icon (app : NewsApp) (e : nat) (article : Article) :
  fav_set (favorites (state app)) ->
  outcome (handle_favorite_click e article) app = Return tt ->
  icons (ui (exec (handle_favorite_click e article) app)) !! e
  = Some (if is_favorite (favorites (state app)) article
          then FAVORITE_BORDER else FAVORITE).
Proof.
  intros Hset. unfold outcome, exec, handle_favorite_click, save_favorites,
    create_task_display_favorites, get_favorite_icon.
  unfold_monad. simpl.
  destruct (is_favorite (favorites (state app)) article) eqn:Hfav; simpl.
  - destruct (list_remove article (favorites (state app))) as [favs'|] eqn:Hrem;
      simpl; [|done].
    destruct (fav_set_removed _ _ _ Hset Hrem) as [_ Hgone].
    destruct (disk_write_error (world app)); simpl; [done|]. intros _.
    destruct (bool_decide _); simpl; by rewrite lookup_insert_eq, Hgone.
  - destruct (disk_write_error (world app)); simpl; [done|]. intros _.
    assert (Hnow : is_favorite (favorites (state app) ++ [article]) article = true).
    { apply is_favorite_elem, elem_of_app. right. apply list_elem_of_here. }
    destruct (bool_decide _); simpl; by rewrite lookup_insert_eq, Hnow.
Qed.

(** What a click that returns normally has saved is what the application
    loads when it is started again. *)
Theorem favorites_survive_restart (app : NewsApp) (e : nat) (article : Article) :
  outcome (handle_favorite_click e article) app = Return tt ->
  let app' := exec (handle_favorite_click e article) app in
  favorites (state (NewsApp_init (world app'))) = favorites (state app').
Proof.
  unfold outcome, exec, handle_favorite_click, save_favorites,
    create_task_display_favorites, NewsApp_init, load_favorites.
  unfold_monad. simpl.
  destruct (is_favorite (favorites (state app)) article); simpl.
  - destruct (list_remove article (favorites (state app))); simpl; [|done].
    destruct (disk_write_error (world app)); simpl; [done|].
    by destruct (bool_decide _).
  - destruct (disk_write_error (world app)); simpl; [done|].
    by destruct (bool_decide _).
Qed.

(** *** Commands that leave the favourites alone *)

Section FavoritesKept.
Context (favs0 : list Article).
Let unchanged (app : NewsApp) : Prop := favorites (state app) = favs0.

Lemma unchanged_state (f : NewsState -> NewsState) (app : NewsApp) :
  (forall st, favorites (f st) = favorites st) -> unchanged app -> unchanged (on_state f app).
Proof. unfold unchanged. simpl. by intros ->. Qed.

Lemma unchanged_ui (f : Widgets -> Widgets) (app : NewsApp) :
  unchanged app -> unchanged (on_ui f app).
Proof. done. Qed.

Lemma unchanged_world (f : World -> World) (app : NewsApp) :
  (forall w, trace (f w) = trace w) -> unchanged app -> unchanged (on_world f app).
Proof. done. Qed.

Lemma unchanged_emit (e : Event) : ~ periodic_event e -> preserves unchanged (emit e).
Proof. by intros _ app H. Qed.

Lemma fetch_headlines_unchanged (country_code : string) :
  preserves unchanged (fetch_headlines country_code).
Proof.
  apply fetch_headlines_kept;
    auto using unchanged_state, unchanged_ui, unchanged_world, unchanged_emit.
Qed.

Lemma display_favorites_unchanged : preserves unchanged display_favorites.
Proof.
  apply display_favorites_kept;
    auto using unchanged_state, unchanged_ui, unchanged_world, unchanged_emit.
Qed.

Lemma run_tasks_unchanged : preserves unchanged run_tasks.
Proof.
  apply run_tasks_kept;
    auto using unchanged_state, unchanged_ui, unchanged_world, unchanged_emit.
Qed.

Lemma handler_unchanged (cmd : Command) :
  match cmd with
  | ClickFavorite _ _ => True
  | _ => preserves unchanged (handler cmd)
  end.
Proof.
  destruct cmd as [| | |index|button article]; cbn [handler]; [| | | |done].
  - apply change_page_kept; auto using unchanged_state, unchanged_ui.
  - apply change_page_kept; auto using unchanged_state, unchanged_ui.
  - unfold refresh_news. apply preserves_bind; [apply preserves_gets|].
    intros country. apply fetch_headlines_unchanged.
  - unfold handle_tab_change.
    apply preserves_bind; [by apply preserves_modify|]. intros _.
    apply preserves_bind; [apply preserves_gets|]. intros [i|]; [|apply preserves_ret].
    destruct (Z.of_nat (length countries) <=? i); [apply display_favorites_unchanged|].
    destruct (i <? Z.of_nat (length (fst <$> countries))); [|apply preserves_ret].
    destruct (py_index (fst <$> countries) i) as [code|]; [|apply preserves_raise].
    apply preserves_bind; [by apply preserves_modify|]. intros _.
    apply fetch_headlines_unchanged.
Qed.
End FavoritesKept.

(** Only a click on a favourite button changes the favourites: pagination,
    refresh and the choice of a tab, with the tasks that follow them, leave
    the list as it is, whatever the feed and the translator do. *)
Theorem favorites_changed_by_click_only (app : NewsApp) (cmd : Command) :
  match cmd with
  | ClickFavorite _ _ => True
  | _ => favorites (state (dispatch app cmd)) = favorites (state app)
  end.
Proof.
  pose proof (handler_unchanged (favorites (state app)) cmd) as Hhandler.
  pose proof (run_tasks_unchanged (favorites (state app))) as Htasks.
  destruct cmd; try done; unfold dispatch, exec;
    apply Htasks, Hhandler; reflexivity.
Qed.

(** ** The favourites view *)

(** A run of [display_favorites], for a page size other than zero. *)
Lemma display_favorites_run (app : NewsApp) :
  articles_per_page (state app) <> 0 ->
  exists app',
    display_favorites app = (Return tt, app')
    /\ raw_article <$> all_articles (state app') = favorites (state app)
    /\ favorites (state app') = favorites (state app)
    /\ articles_per_page (state app') = articles_per_page (state app)
    /\ pending_tasks (world app') = pending_tasks (world app)
    /\ headlines_list (ui app')
       = match favorites (state app) with
         | [] => [NoticeControl "お気に入りのニュースはありません"]
         | _ :: _ =>
             ArticleControl
               <$> current_articles (all_articles (state app')) 0
                                    (articles_per_page (state app))
         end
    /\ (favorites (state app) <> [] -> current_page (state app') = 0).
Proof.
  intros Hpp. unfold display_favorites. unfold mbind, M_bind, bind.
  unfold modify at 1 2. cbv iota beta. unfold gets at 1. cbv iota beta.
  set (app0 := on_state (set_all_articles []) (on_ui (set_headlines_list []) app)).
  change (favorites (state app0)) with (favorites (state app)).
  destruct (favorites (state app)) as [|a l] eqn:Hfavs.
  - eexists. split; [reflexivity|]. simpl. by rewrite Hfavs.
  - assert (Hworld : preserves (fun x => pending_tasks (world x) = pending_tasks (world app))
                       (for_each (a :: l) append_article)).
    { apply preserves_for_each. intros x.
      unfold append_article, translate_article, translate_text, create_article_container,
        print, emit.
      preserves_auto; done. }
    specialize (Hworld app0 eq_refl).
    destruct (for_each_append_article_run (a :: l) app0)
      as (app1 & containers & Hrun & Hframe & Hall & Hen).
    rewrite Hrun in *. simpl in Hworld.
    destruct Hframe as (_ & Hpp1 & _ & Hfav1 & _).
    change (articles_per_page (state app0)) with (articles_per_page (state app)) in Hpp1.
    change (favorites (state app0)) with (favorites (state app)) in Hfav1.
    rewrite display_articles_run by congruence.
    eexists. split; [reflexivity|]. simpl. rewrite Hall. simpl.
    split; [by eapply enriched_raw|]. split; [congruence|]. split; [done|].
    split; [done|]. split; [by rewrite Hpp1|done].
Qed.

(** [display_favorites] shows the favourites: one container for each
    favourite, in the order of the list, on the first page; or, when there
    is no favourite, the notice that says so, and no container. *)
Theorem display_favorites_shows_favorites (app : NewsApp) :
  0 < articles_per_page (state app) ->
  let app' := exec display_favorites app in
  outcome display_favorites app = Return tt
  /\ raw_article <$> all_articles (state app') = favorites (state app)
  /\ favorites (state app') = favorites (state app)
  /\ headlines_list (ui app')
     = match favorites (state app) with
       | [] => [NoticeControl "お気に入りのニュースはありません"]
       | _ :: _ =>
           ArticleControl
             <$> take (Z.to_nat (articles_per_page (state app))) (all_articles (state app'))
       end
  /\ (favorites (state app) <> [] -> current_page (state app') = 0).
Proof.
  intros Hpp. unfold outcome, exec.
  destruct (display_favorites_run app ltac:(lia))
    as (app' & -> & Hraw & Hfav & _ & _ & Hlist & Hpage).
  simpl. split; [done|]. split; [done|]. split; [done|]. split; [|done].
  rewrite Hlist. destruct (favorites (state app)); [done|].
  pose proof (current_articles_window (all_articles (state app')) 0
                (articles_per_page (state app)) Hpp) as Hw.
  change (Z.of_nat 0) with 0 in Hw. by rewrite Hw.
Qed.


(** ** The rounds of the periodic update *)

Lemma fetch_headlines_periodic (events : list Event) (country_code : string) :
  preserves (fun app => List.filter is_periodic (trace (world app)) = events)
            (fetch_headlines country_code).
Proof.
  apply fetch_headlines_kept.
  - by intros f app _ H.
  - by intros f app H.
  - intros f app Hf H. simpl. by rewrite Hf.
  - intros e He app H. simpl. rewrite List.filter_app, H. simpl.
    destruct e; simpl in *; try by rewrite app_nil_r.
    all: exfalso; by apply He.
Qed.

Lemma emit_trace (e : Event) (app : NewsApp) :
  trace (world (snd (emit e app))) = trace (world app) ++ [e].
Proof. reflexivity. Qed.

Lemma check_for_updates_round_events (app : NewsApp) :
  List.filter is_periodic (trace (world (snd (check_for_updates_round app))))
  = List.filter is_periodic (trace (world app))
    ++ [Sleep 300; ShowSnackBar "新しいニュースが利用可能です"].
Proof.
  rewrite check_for_updates_round_run. unfold exec. cbn [snd].
  rewrite emit_trace, List.filter_app.
  rewrite (fetch_headlines_periodic
             (List.filter is_periodic (trace (world app)) ++ [Sleep 300])).
  - by rewrite <- app_assoc.
  - by rewrite emit_trace, List.filter_app.
Qed.

(** Were it started, [check_for_updates] would, in each round, sleep for
    300 seconds and show the notification, whether the fetch in between has
    succeeded or not; it does not raise. *)
Theorem check_for_updates_events (rounds : nat) (app : NewsApp) :
  outcome (check_for_updates rounds) app = Return tt
  /\ List.filter is_periodic (trace (world (exec (check_for_updates rounds) app)))
     = List.filter is_periodic (trace (world app))
       ++ concat (replicate rounds
                    [Sleep 300; ShowSnackBar "新しいニュースが利用可能です"]).
Proof.
  revert app. induction rounds as [|n IH]; intros app.
  - simpl. by rewrite app_nil_r.
  - unfold outcome, exec in *. cbn [check_for_updates].
    unfold mbind, M_bind, bind.
    pose proof (check_for_updates_round_events app) as Hround.
    rewrite check_for_updates_round_run in *. cbn [snd] in Hround.
    match goal with |- context [check_for_updates n ?a] =>
      destruct (IH a) as [Hout Htrace]; rewrite Hout, Htrace, Hround end.
    split; [done|]. cbn [replicate concat]. by rewrite <- !app_assoc.
Qed.

(** ** More on pages *)

(** A page that [change_page] can reach is not blank, and holds no more
    than a page's worth of articles: the number of its articles is the
    page size, or what is left of the list for the last page. *)
Theorem valid_page_length {A : Type} (l : list A) (p : nat) (ps : Z) :
  0 < ps ->
  Z.of_nat p < total_pages (Z.of_nat (length l)) ps ->
  Z.of_nat (length (current_articles l (Z.of_nat p) ps))
  = Z.min ps (Z.of_nat (length l) - Z.of_nat p * ps)
  /\ 1 <= Z.of_nat (length (current_articles l (Z.of_nat p) ps)) <= ps.
Proof.
  intros Hps Hp. rewrite current_articles_window by done.
  rewrite length_take, length_drop.
  pose proof (total_pages_ceiling (Z.of_nat (length l)) ps Hps) as [Hlo _].
  assert (Hk : Z.of_nat (p * Z.to_nat ps) = Z.of_nat p * ps)
    by (rewrite Nat2Z.inj_mul, Z2Nat.id; lia).
  assert (Hstart : Z.of_nat p * ps < Z.of_nat (length l)) by nia.
  split; [lia|]. lia.
Qed.

(** A step forward and a step back lead to the page one started from, with
    its articles on the screen. *)
Theorem change_page_forward_back (app : NewsApp) :
  0 < articles_per_page (state app) ->
  0 <= current_page (state app) ->
  current_page (state app) + 1
    < total_pages (Z.of_nat (length (all_articles (state app))))
                  (articles_per_page (state app)) ->
  let app' := exec (change_page (-1)) (exec (change_page 1) app) in
  current_page (state app') = current_page (state app)
  /\ all_articles (state app') = all_articles (state app)
  /\ headlines_list (ui app')
     = ArticleControl <$> current_articles (all_articles (state app))
                            (current_page (state app)) (articles_per_page (state app)).
Proof.
  intros Hpp Hlo Hhi. unfold exec.
  rewrite (change_page_run 1 app) by lia. cbv zeta.
  destruct (Z.leb_spec 0 (current_page (state app) + 1)); [|lia].
  destruct (Z.ltb_spec (current_page (state app) + 1)
              (total_pages (Z.of_nat (length (all_articles (state app))))
                           (articles_per_page (state app)))); [|lia].
  cbn [andb]. rewrite display_articles_run by lia. cbn [snd].
  rewrite change_page_run by (simpl; lia). cbv zeta. simpl.
  replace (current_page (state app) + 1 + -1) with (current_page (state app)) by lia.
  destruct (Z.leb_spec 0 (current_page (state app))); [|lia].
  destruct (Z.ltb_spec (current_page (state app))
              (total_pages (Z.of_nat (length (all_articles (state app))))
                           (articles_per_page (state app)))); [|lia].
  cbn [andb]. rewrite display_articles_run by (simpl; lia). done.
Qed.

(** ** The icons of the containers *)

Section Icons.
Implicit Types (app : NewsApp) (article : Article).

Lemma translate_text_frame (text : Value) app :
  exists v app',
    translate_text text app = (Return v, app')
    /\ state app' = state app /\ ui app' = ui app.
Proof.
  unfold translate_text. destruct (truthy text); simpl.
  - unfold_monad. simpl.
    destruct (translator (world app) (translator_calls (world app)) text);
      simpl; by eexists _, _.
  - by eexists _, _.
Qed.

Lemma translate_article_frame article app :
  exists translated app',
    translate_article article app = (Return translated, app')
    /\ state app' = state app /\ ui app' = ui app.
Proof.
  unfold translate_article.
  unfold mbind, M_bind, bind, mret, M_ret, ret.
  destruct (truthy (dict_get_or article "title" (VStr ""))).
  - destruct (translate_text_frame (dict_get_or article "title" (VStr "")) app)
      as (v1 & app1 & -> & Hst1 & Hui1).
    destruct (truthy (dict_get_or article "description" (VStr ""))).
    + destruct (translate_text_frame (dict_get_or article "description" (VStr "")) app1)
        as (v2 & app2 & -> & Hst2 & Hui2).
      eexists _, _. split; [reflexivity|]. split; congruence.
    + by eexists _, _.
  - destruct (truthy (dict_get_or article "description" (VStr ""))).
    + destruct (translate_text_frame (dict_get_or article "description" (VStr "")) app)
        as (v2 & app2 & -> & Hst2 & Hui2).
      by eexists _, _.
    + by eexists _, _.
Qed.

(** One round of the pipeline: the container has a button of its own, whose
    icon tells whether the article is a favourite; the icons of the buttons
    made before are not touched. *)
Lemma append_article_icons article app :
  exists app' c,
    append_article article app = (Return tt, app')
    /\ all_articles (state app') = all_articles (state app) ++ [c]
    /\ favorites (state app') = favorites (state app)
    /\ raw_article c = article
    /\ icon_button c = next_button (ui app)
    /\ next_button (ui app') = S (next_button (ui app))
    /\ icons (ui app')
       = <[next_button (ui app) := get_favorite_icon (favorites (state app)) article]>
           (icons (ui app)).
Proof.
  unfold append_article. unfold mbind, M_bind, bind.
  destruct (translate_article_frame article app) as (translated & app1 & -> & Hst & Hui).
  unfold create_article_container. unfold_monad. simpl. rewrite Hui.
  eexists _, (mkContainer _ _ _ _). split; [reflexivity|]. simpl.
  rewrite !Hst, Hui. by repeat split.
Qed.

(** A batch: each container of the batch has its own button, and the icon
    of that button tells whether its article is a favourite. *)
Lemma for_each_append_article_icons (articles : list Article) app :
  exists app' containers,
    for_each articles append_article app = (Return tt, app')
    /\ all_articles (state app') = all_articles (state app) ++ containers
    /\ raw_article <$> containers = articles
    /\ favorites (state app') = favorites (state app)
    /\ (next_button (ui app) <= next_button (ui app'))%nat
    /\ (forall b, (b < next_button (ui app))%nat ->
                  icons (ui app') !! b = icons (ui app) !! b)
    /\ Forall (fun c =>
                 (next_button (ui app) <= icon_button c)%nat
                 /\ icons (ui app') !! icon_button c
                    = Some (get_favorite_icon (favorites (state app)) (raw_article c)))
              containers.
Proof.
  revert app. induction articles as [|a l IH]; intros app; simpl.
  - exists app, []. split; [done|]. split; [by rewrite app_nil_r|]. by repeat split.
  - unfold mbind, M_bind, bind.
    destruct (append_article_icons a app)
      as (app1 & c & -> & Hall1 & Hfav1 & Hraw & Hbutton & Hnext1 & Hicons1).
    destruct (IH app1) as (app2 & cs & -> & Hall2 & Hraws & Hfav2 & Hnext2 & Hold & Hnew).
    exists app2, (c :: cs). split; [done|].
    split; [by rewrite Hall2, Hall1, <- app_assoc|].
    split; [by rewrite fmap_cons, Hraw, Hraws|].
    split; [congruence|]. split; [lia|]. split.
    { intros b Hb. rewrite Hold by lia. rewrite Hicons1.
      apply lookup_insert_ne. lia. }
    apply Forall_cons. split.
    + split; [lia|]. rewrite Hold by lia. rewrite Hicons1, Hbutton, Hraw.
      apply lookup_insert_eq.
    + eapply Forall_impl; [exact Hnew|]. intros c' [Hge Hicon].
      split; [lia|]. by rewrite Hicon, Hfav1.
Qed.

Lemma display_articles_frame (page_num : Z) app :
  let app' := snd (display_articles page_num app) in
  icons (ui app') = icons (ui app)
  /\ all_articles (state app') = all_articles (state app)
  /\ favorites (state app') = favorites (state app).
Proof.
  unfold display_articles, floordiv. unfold_monad. simpl.
  by destruct (articles_per_page (state app) =? 0).
Qed.
End Icons.

(** After a fetch that succeeds with articles, the icon of the button of
    each container tells whether the article of the container is a
    favourite: the filled heart if it is, the outlined one if it is not. *)
Theorem fetch_headlines_icons (country_code : string) (app : NewsApp)
    (articles : list Article) :
  feed (world app) (feed_calls (world app)) country_code
  = Response 200 (Return (Some articles)) ->
  articles <> [] ->
  let app' := exec (fetch_headlines country_code) app in
  Forall (fun c => icons (ui app') !! icon_button c
                   = Some (get_favorite_icon (favorites (state app')) (raw_article c)))
         (all_articles (state app')).
Proof.
  intros Hfeed Hne app'. subst app'.
  unfold exec. rewrite (fetch_headlines_ok_run _ _ _ Hfeed).
  destruct articles as [|a l]; [done|]. clear Hne.
  rewrite process_news_response_batch.
  set (app0 := on_ui _ (awaiting_response country_code app)).
  destruct (for_each_append_article_icons (a :: l) app0)
    as (app1 & containers & -> & Hall & _ & Hfav & _ & _ & Hnew).
  set (app2 := on_ui _ app1).
  destruct (display_articles_frame 0 app2) as (Hicons & Hall2 & Hfav2).
  assert (Hgoal : Forall (fun c => icons (ui (snd (display_articles 0 app2))) !! icon_button c
                     = Some (get_favorite_icon
                               (favorites (state (snd (display_articles 0 app2))))
                               (raw_article c)))
                    (all_articles (state (snd (display_articles 0 app2))))).
  { rewrite Hicons, Hall2, Hfav2. subst app2. simpl. rewrite Hall, Hfav. simpl.
    eapply Forall_impl; [exact Hnew|]. by intros c [_ Hc]. }
  by destruct (display_articles 0 app2) as [[[]|e] app3].
Qed.

Lemma display_favorites_unfold (app : NewsApp) :
  display_favorites app
  = let app0 := on_state (set_all_articles []) (on_ui (set_headlines_list []) app) in
    match favorites (state app) with
    | [] =>
        (Return tt,
         on_ui (set_headlines_list [NoticeControl "お気に入りのニュースはありません"]) app0)
    | a :: l =>
        match for_each (a :: l) append_article app0 with
        | (Return _, app1) => display_articles 0 app1
        | (Raise e, app1) => (Raise e, app1)
        end
    end.
Proof.
  unfold display_favorites. unfold mbind, M_bind, bind.
  unfold modify at 1 2. cbv iota beta zeta. unfold gets at 1. cbv iota beta.
  change (favorites (state (on_state (set_all_articles [])
                              (on_ui (set_headlines_list []) app))))
    with (favorites (state app)).
  by destruct (favorites (state app)).
Qed.

(** In the favourites view, every container has the filled heart. *)
Theorem display_favorites_icons (app : NewsApp) :
  let app' := exec display_favorites app in
  Forall (fun c => icons (ui app') !! icon_button c = Some FAVORITE)
         (all_articles (state app')).
Proof.
  intros app'. subst app'. unfold exec. rewrite display_favorites_unfold. cbv zeta.
  set (app0 := on_state (set_all_articles []) (on_ui (set_headlines_list []) app)).
  destruct (favorites (state app)) as [|a l] eqn:Hfavs; [by apply Forall_nil_2|].
  destruct (for_each_append_article_icons (a :: l) app0)
    as (app1 & containers & -> & Hall & Hraws & Hfav & _ & _ & Hnew).
  destruct (display_articles_frame 0 app1) as (Hicons & Hall2 & _).
  rewrite Hicons, Hall2, Hall. simpl.
  change (favorites (state app0)) with (favorites (state app)) in Hnew.
  rewrite Hfavs in Hnew.
  apply Forall_forall. intros c Hc.
  rewrite Forall_forall in Hnew. destruct (Hnew c Hc) as [_ ->].
  unfold get_favorite_icon. rewrite is_favorite_elem; [done|].
  rewrite <- Hraws. by apply list_elem_of_fmap_2.
Qed.

(** ** Concrete runs of the properties above *)

Lemma fetch_headlines_exception_witness :
  status_text (ui (exec (fetch_headlines "jp") (app_start [])))
  = "エラーが発生しました: Cannot connect to host".
Proof.
  destruct (fetch_headlines_exception "jp" (app_start []) connection_refused eq_refl)
    as (_ & Hui & _).
  by rewrite Hui.
Defined.

Lemma fetch_headlines_status_code_witness :
  status_text (ui (exec (fetch_headlines "jp") (app_start [Response 503 (Return None)])))
  = "ニュースの取得に失敗しました。(エラーコード: 503)".
Proof.
  destruct (fetch_headlines_status_code "jp" (app_start [Response 503 (Return None)])
              503 (Return None) eq_refl ltac:(discriminate))
    as (_ & Hui & _).
  by rewrite Hui.
Defined.


Lemma fetch_headlines_success_witness :
  let app' := exec (fetch_headlines "jp") (app_start [feed_ok (sample_articles 15)]) in
  raw_article <$> all_articles (state app') = sample_articles 15
  /\ current_page (state app') = 0
  /\ pagination_row (ui app') = true.
Proof.
  destruct (fetch_headlines_success "jp" (app_start [feed_ok (sample_articles 15)])
              (sample_articles 15) eq_refl ltac:(discriminate) ltac:(reflexivity))
    as (Hraw & Hpage & _ & _ & Hrow & _).
  split; [exact Hraw|]. split; [exact Hpage|]. by rewrite Hrow.
Defined.

Lemma fetch_headlines_icons_witness :
  let app' := exec (fetch_headlines "jp") (app_start_favorite [feed_ok (sample_articles 3)]) in
  Forall (fun c => icons (ui app') !! icon_button c
                   = Some (get_favorite_icon (favorites (state app')) (raw_article c)))
         (all_articles (state app'))
  /\ (fun c => icons (ui app') !! icon_button c) <$> all_articles (state app')
     = [Some FAVORITE_BORDER; Some FAVORITE; Some FAVORITE_BORDER].
Proof.
  split; [|by vm_compute].
  exact (fetch_headlines_icons "jp" (app_start_favorite [feed_ok (sample_articles 3)])
           (sample_articles 3) eq_refl ltac:(discriminate)).
Defined.

Lemma is_favorite_by_key_witness :
  story_v1 <> story_v2
  /\ is_favorite [story_v1] story_v1 = is_favorite [story_v1] story_v2.
Proof.
  split.
  - apply (bool_decide_eq_false_1 (story_v1 = story_v2)). by vm_compute.
  - apply (is_favorite_by_key [story_v1] story_v1 story_v2). by vm_compute.
Defined.

Lemma handle_favorite_click_save_fails_witness :
  handle_favorite_click 0 story_v1 app_read_only
  = (Raise permission_denied, on_state (set_favorites [story_v1]) app_read_only).
Proof.
  apply (handle_favorite_click_save_fails app_read_only 0 story_v1 permission_denied
           [story_v1]); reflexivity.
Defined.

Lemma handle_favorite_click_icon_witness :
  icons (ui (exec (handle_favorite_click 0 (sample_article 1)) app15)) !! 0%nat
  = Some FAVORITE.
Proof.
  apply (handle_favorite_click_icon app15 0 (sample_article 1)).
  - unfold fav_set. vm_compute. apply NoDup_nil_2.
  - by vm_compute.
Defined.

Lemma favorites_survive_restart_witness :
  favorites (state (NewsApp_init
                      (world (exec (handle_favorite_click 0 story_v1) app_story))))
  = [story_v1].
Proof.
  rewrite (favorites_survive_restart app_story 0 story_v1); vm_compute; reflexivity.
Defined.

Lemma display_favorites_shows_favorites_witness :
  raw_article <$> all_articles (state (exec display_favorites app_story_refreshed))
  = [story_v1].
Proof.
  destruct (display_favorites_shows_favorites app_story_refreshed ltac:(reflexivity))
    as (_ & -> & _).
  vm_compute. reflexivity.
Defined.


Lemma valid_page_length_witness :
  length (current_articles (seq 1 15) 1 10) = 5%nat.
Proof.
  destruct (valid_page_length (seq 1 15) 1 10 ltac:(lia) ltac:(reflexivity)) as [Hlen _].
  apply Nat2Z.inj. exact Hlen.
Defined.

Lemma change_page_forward_back_witness :
  current_page (state (exec (change_page (-1)) (exec (change_page 1) app15))) = 0.
Proof.
  apply (change_page_forward_back app15); by vm_compute.
Defined.
